(** * jsdom: window/document bootstrap and computed style

    A shallow embedding of the two modules of the repository,

    - the API module (class [JSDOM], [transformOptions], [normalizeHTML]),
    - [lib/jsdom/browser/Window.js] ([createWindow], [Window] and its
      [getComputedStyle]),

    followed by the properties of the specification, proved or refuted on it.

    A JavaScript completion is a [Completion] (a value or a thrown
    exception); code that creates or mutates objects threads a [World].
    Packages the two modules import but that are not part of the sources
    (whatwg-mimetype, html-encoding-sniffer, whatwg-encoding, cssstyle, the
    living DOM, the parser) appear either as small models of the interface the
    sources use, or as parameters: the class [CSSStyleDeclaration.class] and
    the fields of the records [StyleRules] and [Host].

    Part I holds the definitions, Part II the lemmas and theorems. *)

From Stdlib Require Import String Ascii List ZArith Bool Lia.
From stdpp Require Import gmap strings list.
Import ListNotations.

Local Open Scope string_scope.
Local Open Scope list_scope.

(* ===================================================================== *)
(** * Part I: the model *)
(* ===================================================================== *)

(** ** Completions *)

(** The exceptions the two modules can raise, by constructor and message. *)
Inductive Exn : Type :=
| Error (message : string)
| RangeError (message : string)
| TypeError (message : string)
| ReferenceError (message : string).

Inductive Completion (A : Type) : Type :=
| Normal (a : A)
| Throw (e : Exn).
Arguments Normal {A} a.
Arguments Throw {A} e.

Definition cbind {A B} (c : Completion A) (k : A -> Completion B) : Completion B :=
  match c with
  | Normal a => k a
  | Throw e => Throw e
  end.

Declare Scope completion_scope.
Delimit Scope completion_scope with completion.
Notation "'try' x <- c ; k" := (cbind c (fun x => k))
  (at level 10, x name, c at level 100, k at level 200)
  : completion_scope.

(** Membership of a name in a list of names. *)
Definition mem (x : string) (l : list string) : bool := existsb (String.eqb x) l.

(** The double quote, for messages that quote a value. *)
Definition dquote : string := String (ascii_of_nat 34) EmptyString.

(* --------------------------------------------------------------------- *)
(** ** CSS declaration blocks *)
(* --------------------------------------------------------------------- *)

(** A declaration block as [getComputedStyle] reads one.  [rule.style] of a
    matching rule and [elt.style] are array-like objects: iterating one
    yields its property names in item order, and [getPropertyValue] and
    [getPropertyPriority] answer for a name.  Nothing else of them is
    used. *)
Module SourceBlock.
Record t : Type := {
  items : list string;
  getPropertyValue : string -> string;
  getPropertyPriority : string -> string
}.
End SourceBlock.

(** The class of the block that [getComputedStyle] builds and returns:
    [CSSStyleDeclaration] of the package cssstyle.  The package is not part
    of the sources.  Which property names it accepts, how it stores a value
    it is given and which properties one call of [setProperty] touches are
    its business, so the class is a parameter: its blocks, the block
    [new CSSStyleDeclaration()] makes, [setProperty] (the priority is [None]
    where the caller passes none) and [getPropertyValue]. *)
Module CSSStyleDeclaration.
Record class : Type := {
  t : Type;
  new : t;
  setProperty : t -> string -> string -> option string -> t;
  getPropertyValue : t -> string -> string
}.
End CSSStyleDeclaration.

(* --------------------------------------------------------------------- *)
(** ** Window.js: getComputedStyle *)
(* --------------------------------------------------------------------- *)

Record CSSStyleRule : Type := {
  selectorText : string;
  rule_style : SourceBlock.t
}.

(** An element, as far as the style cascade looks at it.  [style] is
    [elt.style], the inline declaration block.  An HTML or SVG element has
    one; any other element (an element of an XML document in another
    namespace) has no such property, and [elt.style] is [undefined]
    ([None]). *)
Record Element : Type := {
  localName : string;
  style : option SourceBlock.t
}.

(** What [getComputedStyle] imports from [living/helpers/style-rules]:
    the rules [forEachMatchingSheetRuleOfElement] hands to its callback, in
    the order it does, [getResolvedValue], and the keys of
    [propertiesWithResolvedValueImplemented]. *)
Record StyleRules : Type := {
  forEachMatchingSheetRuleOfElement : Element -> list CSSStyleRule;
  getResolvedValue : Element -> string -> string;
  propertiesWithResolvedValueImplemented : list string
}.

(** What reaches [getComputedStyle]: an element, or anything else, which
    comes with the [TypeError] that [Element.convert] throws for it. *)
Inductive StyleArgument : Type :=
| AnElement (elt : Element)
| NotAnElement (thrown : Exn).

(** [Element.convert]. *)
Definition Element_convert (a : StyleArgument) : Completion Element :=
  match a with
  | AnElement elt => Normal elt
  | NotAnElement thrown => Throw thrown
  end.

(** [forEach.call(block, property => declaration.setProperty(property,
    block.getPropertyValue(property), block.getPropertyPriority(property)))]. *)
Definition copyBlock (c : CSSStyleDeclaration.class) (block : SourceBlock.t)
    (declaration : CSSStyleDeclaration.t c) : CSSStyleDeclaration.t c :=
  fold_left
    (fun declaration property =>
       CSSStyleDeclaration.setProperty c declaration property
         (SourceBlock.getPropertyValue block property)
         (Some (SourceBlock.getPropertyPriority block property)))
    (SourceBlock.items block) declaration.

Definition applySheetRules (c : CSSStyleDeclaration.class) (sr : StyleRules)
    (elt : Element) (declaration : CSSStyleDeclaration.t c) : CSSStyleDeclaration.t c :=
  fold_left (fun declaration rule => copyBlock c (rule_style rule) declaration)
    (forEachMatchingSheetRuleOfElement sr elt) declaration.

(** The second [setProperty] call passes no priority. *)
Definition applyResolvedValues (c : CSSStyleDeclaration.class) (sr : StyleRules)
    (elt : Element) (declaration : CSSStyleDeclaration.t c) : CSSStyleDeclaration.t c :=
  fold_left
    (fun declaration property =>
       CSSStyleDeclaration.setProperty c declaration property
         (getResolvedValue sr elt property) None)
    (propertiesWithResolvedValueImplemented sr) declaration.

(** [forEach.call(undefined, ...)] *)
Definition forEach_on_undefined : Exn :=
  TypeError "Array.prototype.forEach called on null or undefined".

(** The function: the first two loops run on every element; the third one
    is [forEach.call(style, ...)], which throws when [style] is
    [undefined]. *)
Definition getComputedStyle (c : CSSStyleDeclaration.class) (sr : StyleRules)
    (a : StyleArgument) : Completion (CSSStyleDeclaration.t c) :=
  (try elt <- Element_convert a;
   let declaration := CSSStyleDeclaration.new c in
   let style := style elt in
   let declaration := applySheetRules c sr elt declaration in
   let declaration := applyResolvedValues c sr elt declaration in
   match style with
   | None => Throw forEach_on_undefined
   | Some style => Normal (copyBlock c style declaration)
   end)%completion.

(* --------------------------------------------------------------------- *)
(** ** Collaborators of the API module *)
(* --------------------------------------------------------------------- *)

(** A parsed MIME type, as whatwg-mimetype holds it. *)
Record MIMEType : Type := {
  mime_type : string;
  mime_subtype : string;
  mime_parameters : list (string * string)
}.

Definition essence (m : MIMEType) : string :=
  (mime_type m ++ "/" ++ mime_subtype m)%string.

Definition endsWith (s suffix : string) : bool :=
  let n := String.length s in
  let k := String.length suffix in
  (k <=? n)%nat && String.eqb (substring (n - k) k s) suffix.

Definition isHTML (m : MIMEType) : bool :=
  String.eqb (mime_subtype m) "html" && String.eqb (mime_type m) "text".

Definition isXML (m : MIMEType) : bool :=
  (String.eqb (mime_subtype m) "xml"
   && (String.eqb (mime_type m) "text" || String.eqb (mime_type m) "application"))
  || endsWith (mime_subtype m) "+xml".

(** [mimeType.parameters.get(name)]; [None] is [undefined]. *)
Fixpoint parameters_get (ps : list (string * string)) (name : string) : option string :=
  match ps with
  | [] => None
  | (k, v) :: rest => if String.eqb k name then Some v else parameters_get rest name
  end.

(** A cookie store; a new one holds nothing. *)
Record CookieJar : Type := {
  jar_cookies : list (string * string)
}.

(** The calls that leave the two modules, with the objects they are about
    (objects are named by their reference). *)
Inductive Call : Type :=
| installInterfaces (windowInstance : nat)
| documents_createWrapper (window document : nat)
| Selection_createImpl (window : nat)
| CustomElementRegistry_create (window : nat)
| namedPropertiesWindow_initializeWindow (window globalProxy : nat)
| beforeParse (globalProxy : nat)
| parseIntoDocument (html : string) (documentImpl : option nat)
| documentImpl_close (documentImpl : nat)
| document_createElement (document : nat) (name : string) (element : nat)
| set_innerHTML (element : nat) (markup : string).

(** One entry of the log: a call and how it completed ([None]: it returned). *)
Record Event : Type := {
  ev_call : Call;
  ev_outcome : option Exn
}.

(** The environment of the two modules.  [perform] answers for every call
    into the living DOM and the parser, as a function of the calls made so
    far. *)
Record Host : Type := {
  (** names bound on the global object *)
  globalNames : list string;
  (** [new MIMEType(string)] *)
  MIMEType_new : string -> Completion MIMEType;
  (** [whatwgEncoding.labelToName]; [None] is [null] *)
  labelToName : string -> option string;
  (** the meta prescan of html-encoding-sniffer; [None] is [null] *)
  prescanMetaCharset : list Byte.byte -> option string;
  (** [whatwgEncoding.decode] *)
  decode : list Byte.byte -> string -> string;
  (** [(new URL(string)).href] *)
  URL_href : string -> Completion string;
  (** the interface names [installInterfaces] defines on a window *)
  installedInterfaces : list string;
  (** the origin a document derives from its URL *)
  documentOrigin : string -> string;
  perform : list Event -> Call -> option Exn
}.

(* --------------------------------------------------------------------- *)
(** ** API module: normalizeHTML *)
(* --------------------------------------------------------------------- *)

(** Binary input: an [ArrayBuffer], or a view over one (a typed array, a
    [DataView], a Node.js [Buffer]). *)
Inductive BinaryData : Type :=
| AnArrayBuffer (bytes : list Byte.byte)
| ArrayBufferView (buffer : list Byte.byte) (byteOffset byteLength : nat).

(** Any other value whose conversion to a string returns.  [Other] stands
    for a number, a symbol or an object, by the string that string conversion
    gives for it ("42" for 42, "[object Object]" for a plain object).  Values
    whose conversion throws come with [AnyValue] below. *)
Inductive PlainValue : Type :=
| Undefined
| Null
| Boolean (b : bool)
| Text (s : string)
| Other (toString : string).

Inductive InputValue : Type :=
| Binary (b : BinaryData)
| Plain (v : PlainValue).

(** [String(value)], for these values. *)
Definition String_ (v : PlainValue) : string :=
  match v with
  | Undefined => "undefined"
  | Null => "null"
  | Boolean true => "true"
  | Boolean false => "false"
  | Text s => s
  | Other s => s
  end.

(** [Buffer.from(html.buffer, html.byteOffset, html.byteLength)] and
    [Buffer.from(html)]. *)
Definition Buffer_from (b : BinaryData) : list Byte.byte :=
  match b with
  | ArrayBufferView buffer byteOffset byteLength =>
      firstn byteLength (skipn byteOffset buffer)
  | AnArrayBuffer bytes => bytes
  end.

(** [whatwgEncoding.getBOMEncoding]. *)
Definition getBOMEncoding (buffer : list Byte.byte) : option string :=
  match buffer with
  | Byte.xfe :: Byte.xff :: _ => Some "UTF-16BE"
  | Byte.xff :: Byte.xfe :: _ => Some "UTF-16LE"
  | Byte.xef :: Byte.xbb :: Byte.xbf :: _ => Some "UTF-8"
  | _ => None
  end.

(** Encoding detection of html-encoding-sniffer, in the priority order the
    specification gives (section 4.1): a byte-order mark, the transport
    label, the in-document hint, the default. *)
Definition sniffHTMLEncoding (h : Host) (buffer : list Byte.byte)
    (defaultEncoding : string) (transportLayerEncodingLabel : option string) : string :=
  let encoding := getBOMEncoding buffer in
  let encoding :=
    match encoding, transportLayerEncodingLabel with
    | None, Some label => labelToName h label
    | _, _ => encoding
    end in
  let encoding :=
    match encoding with
    | None => prescanMetaCharset h buffer
    | Some _ => encoding
    end in
  match encoding with
  | None => defaultEncoding
  | Some name => name
  end.

Module Normalized.
Record t : Type := { html : string; encoding : string }.
End Normalized.

Definition normalizeHTML (h : Host) (html : InputValue) (mimeType : MIMEType) : Normalized.t :=
  (* html = "" *)
  let html := match html with Plain Undefined => Plain (Text "") | _ => html end in
  let encoding := "UTF-8" in
  match html with
  | Binary b =>
      let html := Buffer_from b in
      let encoding :=
        sniffHTMLEncoding h html
          (if isXML mimeType then "UTF-8" else "windows-1252")
          (parameters_get (mime_parameters mimeType) "charset") in
      {| Normalized.html := decode h html encoding; Normalized.encoding := encoding |}
  | Plain v =>
      {| Normalized.html := String_ v; Normalized.encoding := encoding |}
  end.

(** *** Any value as input

    [InputValue] holds binary data and the values whose conversion to a
    string returns.  A caller can pass any value at all.  What
    [String(html)] does with an object is up to the object: its [toString]
    and [valueOf] are run, and the conversion throws what they throw, or a
    [TypeError] when neither gives a primitive value. *)
Inductive AnyValue : Type :=
| AnyUndefined
| AnyNull
| AnyBoolean (b : bool)
| AnyString (s : string)
| AnyNumber (decimal : string)
| AnySymbol (description : string)
| AnyObject (conversion : Completion string).

Inductive AnyInput : Type :=
| AnyBinary (b : BinaryData)
| AnyPlain (v : AnyValue).

(** [String(value)]: a number gives its decimal text, a symbol its
    descriptive string, an object whatever its conversion does. *)
Definition ToString (v : AnyValue) : Completion string :=
  match v with
  | AnyUndefined => Normal "undefined"
  | AnyNull => Normal "null"
  | AnyBoolean true => Normal "true"
  | AnyBoolean false => Normal "false"
  | AnyString s => Normal s
  | AnyNumber decimal => Normal decimal
  | AnySymbol description => Normal ("Symbol(" ++ description ++ ")")%string
  | AnyObject conversion => conversion
  end.

(** [normalizeHTML] on any value. *)
Definition normalizeHTML_any (h : Host) (html : AnyInput) (mimeType : MIMEType)
    : Completion Normalized.t :=
  (* html = "" *)
  let html := match html with AnyPlain AnyUndefined => AnyPlain (AnyString "") | _ => html end in
  let encoding := "UTF-8" in
  match html with
  | AnyBinary b =>
      let html := Buffer_from b in
      let encoding :=
        sniffHTMLEncoding h html
          (if isXML mimeType then "UTF-8" else "windows-1252")
          (parameters_get (mime_parameters mimeType) "charset") in
      Normal {| Normalized.html := decode h html encoding;
                Normalized.encoding := encoding |}
  | AnyPlain v =>
      (try html <- ToString v;
       Normal {| Normalized.html := html; Normalized.encoding := encoding |})%completion
  end.

(** The inputs of [InputValue] among all values. *)
Definition any_of_plain (v : PlainValue) : AnyValue :=
  match v with
  | Undefined => AnyUndefined
  | Null => AnyNull
  | Boolean b => AnyBoolean b
  | Text s => AnyString s
  | Other s => AnyObject (Normal s)
  end.

Definition any_of_input (input : InputValue) : AnyInput :=
  match input with
  | Binary b => AnyBinary b
  | Plain v => AnyPlain (any_of_plain v)
  end.

(* --------------------------------------------------------------------- *)
(** ** Objects and the world *)
(* --------------------------------------------------------------------- *)

(** The parse options of a document; [None] is a property left out. *)
Record ParseOptions : Type := {
  sourceCodeLocationInfo : bool;
  scriptingEnabled : option bool
}.

(** The getters that [Window] passes to its first [define]. *)
Inductive Getter : Type :=
| get_length
| get_window
| get_frameElement
| get_frames
| get_self
| get_parent
| get_top
| get_document
| get_location
| get_origin
| get_customElements.

(** Values held or returned by a window's properties.  Objects are named by
    reference; a wrapper made by a generated interface and its implementation
    object share one reference. *)
Inductive Value : Type :=
| VNull
| VNumber (n : Z)
| VString (s : string)
| VWindow (ref : nat)
| VDocument (ref : nat)
| VElement (ref : nat)
| VLocation (document : nat)
| VCustomElementRegistry (window : nat)
| VInterface (name : string)
| VFunction (name : string) (window : nat)
| VNotImplemented (name : string) (window : nat).

(** A property of a window: a data property, or an accessor whose getter
    closes over [window]; [setter] tells whether a setter comes with it. *)
Inductive Property : Type :=
| DataProperty (v : Value)
| AccessorProperty (get : Getter) (window : nat) (setter : bool).

Module DocumentImpl.
Record t : Type := {
  parsingMode : string;
  contentType : string;
  encoding : string;
  cookieJar : option CookieJar;
  URL : string;
  lastModified : option string;
  referrer : string;
  concurrentNodeIterators : option nat;
  _parseOptions : ParseOptions;
  _defaultView : nat;
  _global : nat;
  _origin : string
}.
End DocumentImpl.

Module WindowObject.
Record t : Type := {
  _globalObject : nat;
  _globalProxy : nat;
  _document : nat;
  _origin : string;
  _parent : nat;
  _top : nat;
  _frameElement : option nat;
  _length : Z;
  _selection : nat;
  own : gmap string Property
}.
End WindowObject.

(** The state the two modules act on: the windows and documents created so
    far, the next free reference, the module variable
    [sharedFragmentDocument] ([None] is [null]) and the log of the calls that
    left the modules. *)
Record World : Type := {
  windows : gmap nat WindowObject.t;
  documents : gmap nat DocumentImpl.t;
  next_ref : nat;
  sharedFragmentDocument : option nat;
  log : list Event
}.

Definition JS (A : Type) : Type := World -> Completion A * World.

Definition ret {A} (a : A) : JS A := fun W => (Normal a, W).

Definition throw {A} (e : Exn) : JS A := fun W => (Throw e, W).

Definition lift {A} (c : Completion A) : JS A := fun W => (c, W).

Definition bind {A B} (m : JS A) (k : A -> JS B) : JS B :=
  fun W =>
    match m W with
    | (Normal a, W') => k a W'
    | (Throw e, W') => (Throw e, W')
    end.

Declare Scope js_scope.
Delimit Scope js_scope with js.
Notation "'do' x <- m ; k" := (bind m (fun x => k))
  (at level 10, x name, m at level 100, k at level 200)
  : js_scope.

Definition fresh : JS nat :=
  fun W =>
    (Normal (next_ref W),
     {| windows := windows W; documents := documents W;
        next_ref := S (next_ref W);
        sharedFragmentDocument := sharedFragmentDocument W; log := log W |}).

Definition record_event (e : Event) (W : World) : World :=
  {| windows := windows W; documents := documents W; next_ref := next_ref W;
     sharedFragmentDocument := sharedFragmentDocument W; log := log W ++ [e] |}.

Definition completion_of (o : option Exn) : Completion unit :=
  match o with
  | None => Normal tt
  | Some e => Throw e
  end.

(** A call that leaves the modules: the host answers, the log grows. *)
Definition external (h : Host) (c : Call) : JS unit :=
  fun W =>
    let o := perform h (log W) c in
    (completion_of o, record_event {| ev_call := c; ev_outcome := o |} W).

(** A pre-parse hook: a function of the caller.  It receives the global
    proxy and runs on the live world, where it may read and change any window
    or document; it returns or throws. *)
Definition Hook : Type := nat -> JS unit.

Definition outcome_of {A} (c : Completion A) : option Exn :=
  match c with
  | Normal _ => None
  | Throw e => Some e
  end.

(** [hook(globalProxy)] *)
Definition call_hook (hook : Hook) (globalProxy : nat) : JS unit :=
  fun W =>
    let (r, W') := hook globalProxy W in
    (r, record_event {| ev_call := beforeParse globalProxy;
                        ev_outcome := outcome_of r |} W').

Definition store_document (ref : nat) (d : DocumentImpl.t) : JS unit :=
  fun W =>
    (Normal tt,
     {| windows := windows W; documents := <[ref := d]> (documents W);
        next_ref := next_ref W;
        sharedFragmentDocument := sharedFragmentDocument W; log := log W |}).

Definition store_window (ref : nat) (w : WindowObject.t) : JS unit :=
  fun W =>
    (Normal tt,
     {| windows := <[ref := w]> (windows W); documents := documents W;
        next_ref := next_ref W;
        sharedFragmentDocument := sharedFragmentDocument W; log := log W |}).

Definition set_sharedFragmentDocument (d : nat) : JS unit :=
  fun W =>
    (Normal tt,
     {| windows := windows W; documents := documents W; next_ref := next_ref W;
        sharedFragmentDocument := Some d; log := log W |}).

Definition undefinedProperty (name : string) : Exn :=
  TypeError ("Cannot read properties of undefined (reading '" ++ name ++ "')")%string.

(** Reading a field of the window behind a reference. *)
Definition window_field {A} (name : string) (f : WindowObject.t -> A) (ref : nat) : JS A :=
  fun W =>
    match windows W !! ref with
    | Some w => (Normal (f w), W)
    | None => (Throw (undefinedProperty name), W)
    end.

Definition document_field {A} (name : string) (f : DocumentImpl.t -> A) (ref : nat) : JS A :=
  fun W =>
    match documents W !! ref with
    | Some d => (Normal (f d), W)
    | None => (Throw (undefinedProperty name), W)
    end.

(** [idlUtils.implForWrapper(wrapper)] is [wrapper[implSymbol]]: the
    implementation object that the [setup] of a generated interface stored on
    the wrapper.  A document made by [documents.createWrapper] and an element
    have one (under the same reference here).  Any other value has none, and
    the result is [undefined] ([None]).  A window is such a value: it is the
    plain object that [new Window] allocates, and neither [setupWindow] nor
    [Window] runs the [setup] of an interface on it. *)
Definition implForWrapper (wrapper : Value) : option nat :=
  match wrapper with
  | VDocument ref => Some ref
  | VElement ref => Some ref
  | _ => None
  end.

Definition defineProperty_on_non_object : Exn :=
  TypeError "Object.defineProperty called on non-object".

(** The first argument of [Object.defineProperty] must be an object. *)
Definition Object_defineProperty_on (object : option nat) : Completion nat :=
  match object with
  | Some ref => Normal ref
  | None => Throw defineProperty_on_non_object
  end.

(** [Object.defineProperty] for each property of [properties], in order. *)
Definition define (properties : list (string * Property))
    (object : gmap string Property) : gmap string Property :=
  fold_left (fun object kv => <[fst kv := snd kv]> object) properties object.

(* --------------------------------------------------------------------- *)
(** ** API module: transformOptions *)
(* --------------------------------------------------------------------- *)

(** The options object of the caller; [None] is a property left
    [undefined], [includeNodeLocations] is the truth value of the property. *)
Module Options.
Record t : Type := {
  contentType : option string;
  url : option string;
  referrer : option string;
  includeNodeLocations : bool;
  cookieJar : option CookieJar;
  beforeParse : option Hook
}.
(** [options = {}] *)
Definition empty : t :=
  {| contentType := None; url := None; referrer := None;
     includeNodeLocations := false; cookieJar := None; beforeParse := None |}.
End Options.

Module WindowOptions.
Record t : Type := {
  url : string;
  referrer : string;
  contentType : string;
  parsingMode : string;
  parseOptions : ParseOptions;
  runScripts : option string;
  encoding : string;
  pretendToBeVisual : bool;
  storageQuota : Z;
  resourceLoader : option unit;
  virtualConsole : option unit;
  cookieJar : option CookieJar
}.

Definition set_contentType (v : string) (o : t) : t :=
  {| url := url o; referrer := referrer o; contentType := v;
     parsingMode := parsingMode o; parseOptions := parseOptions o;
     runScripts := runScripts o; encoding := encoding o;
     pretendToBeVisual := pretendToBeVisual o; storageQuota := storageQuota o;
     resourceLoader := resourceLoader o; virtualConsole := virtualConsole o;
     cookieJar := cookieJar o |}.

Definition set_parsingMode (v : string) (o : t) : t :=
  {| url := url o; referrer := referrer o; contentType := contentType o;
     parsingMode := v; parseOptions := parseOptions o;
     runScripts := runScripts o; encoding := encoding o;
     pretendToBeVisual := pretendToBeVisual o; storageQuota := storageQuota o;
     resourceLoader := resourceLoader o; virtualConsole := virtualConsole o;
     cookieJar := cookieJar o |}.

Definition set_url (v : string) (o : t) : t :=
  {| url := v; referrer := referrer o; contentType := contentType o;
     parsingMode := parsingMode o; parseOptions := parseOptions o;
     runScripts := runScripts o; encoding := encoding o;
     pretendToBeVisual := pretendToBeVisual o; storageQuota := storageQuota o;
     resourceLoader := resourceLoader o; virtualConsole := virtualConsole o;
     cookieJar := cookieJar o |}.

Definition set_referrer (v : string) (o : t) : t :=
  {| url := url o; referrer := v; contentType := contentType o;
     parsingMode := parsingMode o; parseOptions := parseOptions o;
     runScripts := runScripts o; encoding := encoding o;
     pretendToBeVisual := pretendToBeVisual o; storageQuota := storageQuota o;
     resourceLoader := resourceLoader o; virtualConsole := virtualConsole o;
     cookieJar := cookieJar o |}.

Definition set_parseOptions (v : ParseOptions) (o : t) : t :=
  {| url := url o; referrer := referrer o; contentType := contentType o;
     parsingMode := parsingMode o; parseOptions := v;
     runScripts := runScripts o; encoding := encoding o;
     pretendToBeVisual := pretendToBeVisual o; storageQuota := storageQuota o;
     resourceLoader := resourceLoader o; virtualConsole := virtualConsole o;
     cookieJar := cookieJar o |}.

Definition set_cookieJar (v : option CookieJar) (o : t) : t :=
  {| url := url o; referrer := referrer o; contentType := contentType o;
     parsingMode := parsingMode o; parseOptions := parseOptions o;
     runScripts := runScripts o; encoding := encoding o;
     pretendToBeVisual := pretendToBeVisual o; storageQuota := storageQuota o;
     resourceLoader := resourceLoader o; virtualConsole := virtualConsole o;
     cookieJar := v |}.
End WindowOptions.

Record Transformed : Type := {
  windowOptions : WindowOptions.t;
  transformed_beforeParse : Hook
}.

(** The names the API module binds: its [require]s, its two top-level
    declarations, the class, the two functions, and what the module wrapper
    provides. *)
Definition moduleScope : list string :=
  [ "sniffHTMLEncoding"; "whatwgEncoding"; "MIMEType"; "idlUtils";
    "createWindow"; "parseIntoDocument"; "fragmentSerialization";
    "window"; "sharedFragmentDocument"; "JSDOM"; "transformOptions";
    "normalizeHTML"; "exports"; "require"; "module" ].

(** An identifier resolves in the module scope, then on the global object. *)
Definition resolves (h : Host) (name : string) : bool :=
  mem name moduleScope || mem name (globalNames h).

(** [new CookieJar()]: the identifier is looked up first. *)
Definition new_CookieJar (h : Host) : Completion CookieJar :=
  if resolves h "CookieJar" then Normal {| jar_cookies := [] |}
  else Throw (ReferenceError "CookieJar is not defined").

(** The text of [`${options.contentType}`]. *)
Definition contentType_text (options : Options.t) : string :=
  match Options.contentType options with
  | Some s => s
  | None => "undefined"
  end.

Definition notHTMLorXML (options : Options.t) : Exn :=
  RangeError ("The given content type of " ++ dquote ++ contentType_text options
              ++ dquote ++ " was not a HTML or XML content type")%string.

Definition locationsWithXML : Exn :=
  TypeError "Cannot set includeNodeLocations to true with an XML content type".

(** [beforeParse() { }] *)
Definition default_beforeParse : Hook := fun _ => ret tt.

Definition transformOptions (h : Host) (options : Options.t) (encoding : string)
    (mimeType : MIMEType) : Completion Transformed :=
  let transformed_windowOptions : WindowOptions.t :=
    {| WindowOptions.url := "about:blank";
       WindowOptions.referrer := "";
       WindowOptions.contentType := "text/html";
       WindowOptions.parsingMode := "html";
       WindowOptions.parseOptions :=
         {| sourceCodeLocationInfo := false; scriptingEnabled := Some false |};
       WindowOptions.runScripts := None;
       WindowOptions.encoding := encoding;
       WindowOptions.pretendToBeVisual := false;
       WindowOptions.storageQuota := 5000000;
       WindowOptions.resourceLoader := None;
       WindowOptions.virtualConsole := None;
       WindowOptions.cookieJar := None |} in
  let transformed_beforeParse := default_beforeParse in
  if negb (isHTML mimeType) && negb (isXML mimeType) then Throw (notHTMLorXML options)
  else
  let wo := WindowOptions.set_contentType (essence mimeType) transformed_windowOptions in
  let wo := WindowOptions.set_parsingMode (if isHTML mimeType then "html" else "xml") wo in
  (try wo <- match Options.url options with
             | Some u => try href <- URL_href h u; Normal (WindowOptions.set_url href wo)
             | None => Normal wo
             end;
   try wo <- match Options.referrer options with
             | Some r => try href <- URL_href h r; Normal (WindowOptions.set_referrer href wo)
             | None => Normal wo
             end;
   try wo <- (if Options.includeNodeLocations options then
                if String.eqb (WindowOptions.parsingMode wo) "xml" then Throw locationsWithXML
                else Normal (WindowOptions.set_parseOptions
                               {| sourceCodeLocationInfo := true; scriptingEnabled := None |} wo)
              else Normal wo);
   try jar <- match Options.cookieJar options with
              | None => new_CookieJar h
              | Some jar => Normal jar
              end;
   let wo := WindowOptions.set_cookieJar (Some jar) wo in
   let transformed_beforeParse :=
     match Options.beforeParse options with
     | Some hook => hook
     | None => transformed_beforeParse
     end in
   Normal {| windowOptions := wo; transformed_beforeParse := transformed_beforeParse |}
  )%completion.

(* --------------------------------------------------------------------- *)
(** ** Window.js: the Window constructor *)
(* --------------------------------------------------------------------- *)

(** What [installInterfaces] leaves on the window: one property per
    interface name. *)
Definition interfaceProperties (h : Host) : list (string * Property) :=
  map (fun name => (name, DataProperty (VInterface name))) (installedInterfaces h).

(** [setupWindow]: the interfaces are installed, [windowInstance.EventTarget]
    becomes the prototype of the [Window] function (which fails when it is
    [undefined]), and [Window] is defined on the instance. *)
Definition setupWindow (h : Host) (windowInstance : nat) : JS (gmap string Property) :=
  (do _ <- external h (installInterfaces windowInstance);
   let own := define (interfaceProperties h) ∅ in
   match own !! "EventTarget" with
   | None => throw (TypeError "Object prototype may only be an Object or null: undefined")
   | Some _ =>
       ret (<["Window" := DataProperty (VFunction "Window" windowInstance)]> own)
   end)%js.

(** The object literal of the first [define]. *)
Definition getters (window : nat) : list (string * Property) :=
  [ ("length", AccessorProperty get_length window false);
    ("window", AccessorProperty get_window window false);
    ("frameElement", AccessorProperty get_frameElement window false);
    ("frames", AccessorProperty get_frames window false);
    ("self", AccessorProperty get_self window false);
    ("parent", AccessorProperty get_parent window false);
    ("top", AccessorProperty get_top window false);
    ("document", AccessorProperty get_document window false);
    ("location", AccessorProperty get_location window false);
    ("origin", AccessorProperty get_origin window true);
    ("customElements", AccessorProperty get_customElements window false) ].

Definition notImplementedMethod (window : nat) (name : string) : Property :=
  DataProperty (VNotImplemented name window).

(** The object literal of the second [define]. *)
Definition publicDataProperties (window : nat) : list (string * Property) :=
  [ ("name", DataProperty (VString ""));
    ("status", DataProperty (VString ""));
    ("devicePixelRatio", DataProperty (VNumber 1));
    ("innerWidth", DataProperty (VNumber 1024));
    ("innerHeight", DataProperty (VNumber 768));
    ("outerWidth", DataProperty (VNumber 1024));
    ("outerHeight", DataProperty (VNumber 768));
    ("pageXOffset", DataProperty (VNumber 0));
    ("pageYOffset", DataProperty (VNumber 0));
    ("screenX", DataProperty (VNumber 0));
    ("screenLeft", DataProperty (VNumber 0));
    ("screenY", DataProperty (VNumber 0));
    ("screenTop", DataProperty (VNumber 0));
    ("scrollX", DataProperty (VNumber 0));
    ("scrollY", DataProperty (VNumber 0));
    ("alert", notImplementedMethod window "window.alert");
    ("blur", notImplementedMethod window "window.blur");
    ("confirm", notImplementedMethod window "window.confirm");
    ("focus", notImplementedMethod window "window.focus");
    ("moveBy", notImplementedMethod window "window.moveBy");
    ("moveTo", notImplementedMethod window "window.moveTo");
    ("open", notImplementedMethod window "window.open");
    ("print", notImplementedMethod window "window.print");
    ("prompt", notImplementedMethod window "window.prompt");
    ("resizeBy", notImplementedMethod window "window.resizeBy");
    ("resizeTo", notImplementedMethod window "window.resizeTo");
    ("scroll", notImplementedMethod window "window.scroll");
    ("scrollBy", notImplementedMethod window "window.scrollBy");
    ("scrollTo", notImplementedMethod window "window.scrollTo") ].

(** [new Window(options)].  The object is entered into the world once the
    constructor has run to its end.  It never does: the fourth statement asks
    [idlUtils.implForWrapper] for the implementation object of [this], which
    has none, and [Object.defineProperty] throws. *)
Definition Window (h : Host) (options : WindowOptions.t) : JS nat :=
  (do this <- fresh;
   do own <- setupWindow h this;
   let window := this in
   let _globalProxy := this in
   (* Object.defineProperty(idlUtils.implForWrapper(this), idlUtils.wrapperSymbol,
                            { get: () => this._globalProxy }) *)
   do _ <- lift (Object_defineProperty_on (implForWrapper (VWindow this)));
   (* this._document = documents.createWrapper(window, {...}) *)
   do document <- fresh;
   do _ <- external h (documents_createWrapper window document);
   let documentImpl :=
     {| DocumentImpl.parsingMode := WindowOptions.parsingMode options;
        DocumentImpl.contentType := WindowOptions.contentType options;
        DocumentImpl.encoding := WindowOptions.encoding options;
        DocumentImpl.cookieJar := WindowOptions.cookieJar options;
        DocumentImpl.URL := WindowOptions.url options;
        DocumentImpl.lastModified := None;
        DocumentImpl.referrer := WindowOptions.referrer options;
        DocumentImpl.concurrentNodeIterators := None;
        DocumentImpl._parseOptions := WindowOptions.parseOptions options;
        DocumentImpl._defaultView := _globalProxy;
        DocumentImpl._global := this;
        DocumentImpl._origin := documentOrigin h (WindowOptions.url options) |} in
   do _ <- store_document document documentImpl;
   let _document := document in
   let _origin := DocumentImpl._origin documentImpl in
   (* this._parent = this._top = this._globalProxy *)
   let _top := _globalProxy in
   let _parent := _top in
   let _frameElement : option nat := None in
   let _length := 0%Z in
   do _ <- external h (Selection_createImpl window);
   let _selection := window in
   let own := <["getSelection" := DataProperty (VFunction "getSelection" window)]> own in
   do _ <- external h (CustomElementRegistry_create window);
   let own := define (getters window) own in
   do _ <- external h (namedPropertiesWindow_initializeWindow this _globalProxy);
   (* this.HTMLOptionElement.prototype *)
   do _ <- match own !! "HTMLOptionElement" with
           | None => throw (undefinedProperty "prototype")
           | Some _ => ret tt
           end;
   let own := <["Option" := DataProperty (VFunction "Option" window)]> own in
   let own := <["getComputedStyle" :=
                  DataProperty (VFunction "getComputedStyle" window)]> own in
   let own := <["getSelection" := DataProperty (VFunction "getSelection" window)]> own in
   let own := define (publicDataProperties window) own in
   do _ <- store_window this
             {| WindowObject._globalObject := this;
                WindowObject._globalProxy := _globalProxy;
                WindowObject._document := _document;
                WindowObject._origin := _origin;
                WindowObject._parent := _parent;
                WindowObject._top := _top;
                WindowObject._frameElement := _frameElement;
                WindowObject._length := _length;
                WindowObject._selection := _selection;
                WindowObject.own := own |};
   ret this)%js.

Definition createWindow (h : Host) (options : WindowOptions.t) : JS nat :=
  Window h options.

(** What a getter of the first [define] returns, on the window it closes
    over. *)
Definition run_getter (g : Getter) (window : WindowObject.t) : Value :=
  match g with
  | get_length => VNumber (WindowObject._length window)
  | get_window => VWindow (WindowObject._globalProxy window)
  | get_frameElement =>
      match WindowObject._frameElement window with
      | Some element => VElement element
      | None => VNull
      end
  | get_frames => VWindow (WindowObject._globalProxy window)
  | get_self => VWindow (WindowObject._globalProxy window)
  | get_parent => VWindow (WindowObject._parent window)
  | get_top => VWindow (WindowObject._top window)
  | get_document => VDocument (WindowObject._document window)
  | get_location =>
      match implForWrapper (VDocument (WindowObject._document window)) with
      | Some documentImpl => VLocation documentImpl
      | None => VNull
      end
  | get_origin => VString (WindowObject._origin window)
  | get_customElements => VCustomElementRegistry (WindowObject._globalObject window)
  end.

(** Reading the own property [name] of the window [ref]: the value of a data
    property, the result of the getter of an accessor.  [None] when [ref] is
    no window or has no own property of that name (the prototype chain is not
    part of the model). *)
Definition Get (W : World) (ref : nat) (name : string) : option Value :=
  match windows W !! ref with
  | None => None
  | Some object =>
      match WindowObject.own object !! name with
      | None => None
      | Some (DataProperty v) => Some v
      | Some (AccessorProperty g window _) =>
          match windows W !! window with
          | None => None
          | Some closed_over => Some (run_getter g closed_over)
          end
      end
  end.

(* --------------------------------------------------------------------- *)
(** ** API module: class JSDOM *)
(* --------------------------------------------------------------------- *)

(** An instance: [window_slot] is [this[window]]. *)
Record JSDOM : Type := {
  window_slot : nat
}.

Definition JSDOM_constructor (h : Host) (input : InputValue) (options : Options.t)
    : JS JSDOM :=
  (do mimeType <- lift (MIMEType_new h
                          match Options.contentType options with
                          | None => "text/html"
                          | Some contentType => contentType
                          end);
   let normalized := normalizeHTML h input mimeType in
   let html := Normalized.html normalized in
   let encoding := Normalized.encoding normalized in
   do options <- lift (transformOptions h options encoding mimeType);
   do this_window <- createWindow h (windowOptions options);
   do _document <- window_field "_document" WindowObject._document this_window;
   let documentImpl := implForWrapper (VDocument _document) in
   do _globalProxy <- window_field "_globalProxy" WindowObject._globalProxy this_window;
   do _ <- call_hook (transformed_beforeParse options) _globalProxy;
   do _ <- external h (parseIntoDocument html documentImpl);
   do _ <- match documentImpl with
           | Some documentImpl => external h (documentImpl_close documentImpl)
           | None => throw (undefinedProperty "close")
           end;
   ret {| window_slot := this_window |})%js.

(** [get window()] *)
Definition JSDOM_window (dom : JSDOM) : JS nat :=
  window_field "_globalProxy" WindowObject._globalProxy (window_slot dom).

(** Source-location metadata of a node, as the parser records it. *)
Record SourceCodeLocation : Type := {
  startOffset : nat;
  endOffset : nat
}.

(** A node, as far as [nodeLocation] looks at it; [None] is [undefined]. *)
Record Node : Type := {
  node_ref : nat;
  sourceCodeLocation : option SourceCodeLocation
}.

Definition locationsNotSaved : Exn :=
  Error "Location information was not saved for this jsdom. Use includeNodeLocations during creation.".

Definition nodeLocation (dom : JSDOM) (node : Node) : JS (option SourceCodeLocation) :=
  (do _document <- window_field "_document" WindowObject._document (window_slot dom);
   do _parseOptions <-
     match implForWrapper (VDocument _document) with
     | Some documentImpl =>
         document_field "_parseOptions" DocumentImpl._parseOptions documentImpl
     | None => throw (undefinedProperty "_parseOptions")
     end;
   if negb (sourceCodeLocationInfo _parseOptions) then throw locationsNotSaved
   else ret (sourceCodeLocation node))%js.


(** The content of a template element: the fragment [fragment] returns. *)
Record DocumentFragment : Type := {
  fragment_host : nat;
  fragment_document : nat
}.

Definition fragment (h : Host) (string : option string) : JS DocumentFragment :=
  (* string = "" *)
  let string := match string with Some s => s | None => "" end in
  (do shared <- (fun W => (Normal (sharedFragmentDocument W), W));
   do document <-
     match shared with
     | Some document => ret document
     | None =>
         do dom <- JSDOM_constructor h (Plain Undefined) Options.empty;
         do globalProxy <- JSDOM_window dom;
         do v <- (fun W => (Normal (Get W globalProxy "document"), W));
         match v with
         | Some (VDocument document) =>
             do _ <- set_sharedFragmentDocument document;
             ret document
         | _ => throw (undefinedProperty "createElement")
         end
     end;
   do template <- fresh;
   do _ <- external h (document_createElement document "template" template);
   do _ <- external h (set_innerHTML template string);
   ret {| fragment_host := template; fragment_document := document |})%js.

(* --------------------------------------------------------------------- *)
(** ** Window.js: the Option function *)
(* --------------------------------------------------------------------- *)






(* --------------------------------------------------------------------- *)
(** ** A host for the examples *)
(* --------------------------------------------------------------------- *)

(** The names of the Node.js global object that the API module refers to.
    Node.js binds no [CookieJar] (neither does a browser). *)
Definition nodeGlobals : list string :=
  [ "globalThis"; "undefined"; "Object"; "Array"; "String"; "Symbol";
    "Error"; "RangeError"; "TypeError"; "ReferenceError";
    "ArrayBuffer"; "Buffer"; "URL" ].

(** A MIME type parser good for the strings of the examples:
    [type/subtype], no parameters. *)
Definition sample_MIMEType_new (s : string) : Completion MIMEType :=
  match index 0 "/" s with
  | Some i =>
      let type := substring 0 i s in
      let subtype := substring (S i) (String.length s - S i) s in
      if String.eqb type "" || String.eqb subtype "" then
        Throw (Error ("Could not parse MIME type string '" ++ s ++ "'")%string)
      else Normal {| mime_type := type; mime_subtype := subtype; mime_parameters := [] |}
  | None => Throw (Error ("Could not parse MIME type string '" ++ s ++ "'")%string)
  end.

Definition is_alpha (c : ascii) : bool :=
  let n := nat_of_ascii c in
  ((65 <=? n) && (n <=? 90) || (97 <=? n) && (n <=? 122))%nat.

(** Whether [s] goes on with letters up to a colon. *)
Fixpoint scheme_rest (s : string) : bool :=
  match s with
  | EmptyString => false
  | String c rest => if Ascii.eqb c ":" then true
                     else is_alpha c && scheme_rest rest
  end.

(** A URL parser good for the strings of the examples: a string that starts
    with a scheme of letters is taken as it is, any other is refused the way
    [new URL] refuses a string that is no absolute URL. *)
Definition sample_URL_href (s : string) : Completion string :=
  match s with
  | String c rest =>
      if is_alpha c && scheme_rest rest then Normal s
      else Throw (TypeError "Invalid URL")
  | EmptyString => Throw (TypeError "Invalid URL")
  end.

Definition sample_labelToName (label : string) : option string :=
  if String.eqb label "utf-8" then Some "UTF-8"
  else if String.eqb label "windows-1252" then Some "windows-1252"
  else None.

(** A host whose collaborators always return. *)
Definition sample_host : Host :=
  {| globalNames := nodeGlobals;
     MIMEType_new := sample_MIMEType_new;
     labelToName := sample_labelToName;
     prescanMetaCharset := fun _ => None;
     decode := fun bytes _ => string_of_list_byte bytes;
     URL_href := sample_URL_href;
     installedInterfaces :=
       [ "EventTarget"; "Node"; "Element"; "HTMLElement"; "HTMLOptionElement";
         "Document" ];
     documentOrigin := fun url => if String.eqb url "about:blank" then "null" else url;
     perform := fun _ _ => None |}.

(** The world before anything was created. *)
Definition empty_world : World :=
  {| windows := ∅; documents := ∅; next_ref := 0;
     sharedFragmentDocument := None; log := [] |}.

Definition empty_jar : CookieJar := {| jar_cookies := [] |}.

(** Options that supply a cookie store. *)
Definition sample_options : Options.t :=
  {| Options.contentType := None; Options.url := None; Options.referrer := None;
     Options.includeNodeLocations := false; Options.cookieJar := Some empty_jar;
     Options.beforeParse := None |}.

(* --------------------------------------------------------------------- *)
(** ** Names for the statements of Part II *)
(* --------------------------------------------------------------------- *)

(** The definitions below are not part of the sources: they name what the
    sources compute, for the statements of Part II. *)

(** The content type string the constructor parses. *)
Definition contentType_or_default (options : Options.t) : string :=
  match Options.contentType options with
  | None => "text/html"
  | Some contentType => contentType
  end.

(** The first URL of the options that [new URL] refuses, as the error it
    throws: [url] is parsed before [referrer]. *)
Definition invalidURL (h : Host) (options : Options.t) : option Exn :=
  match Options.url options with
  | Some u =>
      match URL_href h u with
      | Throw e => Some e
      | Normal _ =>
          match Options.referrer options with
          | Some r => match URL_href h r with Throw e => Some e | Normal _ => None end
          | None => None
          end
      end
  | None =>
      match Options.referrer options with
      | Some r => match URL_href h r with Throw e => Some e | Normal _ => None end
      | None => None
      end
  end.

Definition string_or_empty (markup : option string) : string :=
  match markup with Some s => s | None => "" end.

(** What [fragment] does once the shared document is known. *)
Definition fragment_in (h : Host) (document : nat) (markup : string)
    : JS DocumentFragment :=
  (do template <- fresh;
   do _ <- external h (document_createElement document "template" template);
   do _ <- external h (set_innerHTML template markup);
   ret {| fragment_host := template; fragment_document := document |})%js.

(** One call of [setProperty] on the block being built. *)
Record Write : Type := {
  write_property : string;
  write_value : string;
  write_priority : option string
}.

Definition write (c : CSSStyleDeclaration.class) (declaration : CSSStyleDeclaration.t c)
    (w : Write) : CSSStyleDeclaration.t c :=
  CSSStyleDeclaration.setProperty c declaration
    (write_property w) (write_value w) (write_priority w).

(** The call that copies the property [p] of [block]. *)
Definition blockWrite (block : SourceBlock.t) (p : string) : Write :=
  {| write_property := p;
     write_value := SourceBlock.getPropertyValue block p;
     write_priority := Some (SourceBlock.getPropertyPriority block p) |}.

Definition blockWrites (block : SourceBlock.t) : list Write :=
  map (blockWrite block) (SourceBlock.items block).


(** The calls for the resolved-value properties. *)
Definition resolvedWrites (sr : StyleRules) (elt : Element) : list Write :=
  map (fun p => {| write_property := p;
                   write_value := getResolvedValue sr elt p;
                   write_priority := None |})
    (propertiesWithResolvedValueImplemented sr).

(** The parse options [transformOptions] sets for [includeNodeLocations]. *)
Definition parseOptions_for (includeNodeLocations : bool) : ParseOptions :=
  if includeNodeLocations
  then {| sourceCodeLocationInfo := true; scriptingEnabled := None |}
  else {| sourceCodeLocationInfo := false; scriptingEnabled := Some false |}.

(** The options with [contentType] set or left out. *)
Definition with_contentType (contentType : option string) (options : Options.t)
    : Options.t :=
  {| Options.contentType := contentType;
     Options.url := Options.url options;
     Options.referrer := Options.referrer options;
     Options.includeNodeLocations := Options.includeNodeLocations options;
     Options.cookieJar := Options.cookieJar options;
     Options.beforeParse := Options.beforeParse options |}.



(* --------------------------------------------------------------------- *)
(** ** Sample data *)
(* --------------------------------------------------------------------- *)

Definition text_html : MIMEType :=
  {| mime_type := "text"; mime_subtype := "html"; mime_parameters := [] |}.

Definition text_plain : MIMEType :=
  {| mime_type := "text"; mime_subtype := "plain"; mime_parameters := [] |}.

Definition application_xml : MIMEType :=
  {| mime_type := "application"; mime_subtype := "xml"; mime_parameters := [] |}.

(** The bytes of [<p>], with no byte-order mark. *)
Definition sample_bytes : list Byte.byte := [Byte.x3c; Byte.x70; Byte.x3e].

Definition sample_input : InputValue := Plain (Text "<p>hi</p>").

Definition sample_node : Node :=
  {| node_ref := 7;
     sourceCodeLocation := Some {| startOffset := 0; endOffset := 9 |} |}.

Definition text_plain_options : Options.t :=
  {| Options.contentType := Some "text/plain"; Options.url := None;
     Options.referrer := None; Options.includeNodeLocations := false;
     Options.cookieJar := Some empty_jar; Options.beforeParse := None |}.

(** [includeNodeLocations] with an HTML content type. *)
Definition locations_options : Options.t :=
  {| Options.contentType := None; Options.url := None;
     Options.referrer := None; Options.includeNodeLocations := true;
     Options.cookieJar := Some empty_jar; Options.beforeParse := None |}.

(** [includeNodeLocations] with an XML content type. *)
Definition xml_locations_options : Options.t :=
  {| Options.contentType := Some "application/xml"; Options.url := None;
     Options.referrer := None; Options.includeNodeLocations := true;
     Options.cookieJar := Some empty_jar; Options.beforeParse := None |}.

(** The same with a [url] that is no URL. *)
Definition xml_locations_bad_url_options : Options.t :=
  {| Options.contentType := Some "application/xml"; Options.url := Some "not a url";
     Options.referrer := None; Options.includeNodeLocations := true;
     Options.cookieJar := Some empty_jar; Options.beforeParse := None |}.

(** The window options [transformOptions] makes of [sample_options]. *)
Definition sample_windowOptions : WindowOptions.t :=
  {| WindowOptions.url := "about:blank";
     WindowOptions.referrer := "";
     WindowOptions.contentType := "text/html";
     WindowOptions.parsingMode := "html";
     WindowOptions.parseOptions :=
       {| sourceCodeLocationInfo := false; scriptingEnabled := Some false |};
     WindowOptions.runScripts := None;
     WindowOptions.encoding := "UTF-8";
     WindowOptions.pretendToBeVisual := false;
     WindowOptions.storageQuota := 5000000;
     WindowOptions.resourceLoader := None;
     WindowOptions.virtualConsole := None;
     WindowOptions.cookieJar := Some empty_jar |}.


(** A source block from its entries: property, value, priority. *)
Fixpoint entry_value (entries : list (string * string * string)) (p : string) : string :=
  match entries with
  | [] => ""
  | (q, v, _) :: rest => if String.eqb q p then v else entry_value rest p
  end.

Fixpoint entry_priority (entries : list (string * string * string)) (p : string) : string :=
  match entries with
  | [] => ""
  | (q, _, pr) :: rest => if String.eqb q p then pr else entry_priority rest p
  end.

Definition block_of (entries : list (string * string * string)) : SourceBlock.t :=
  {| SourceBlock.items := map (fun e => fst (fst e)) entries;
     SourceBlock.getPropertyValue := entry_value entries;
     SourceBlock.getPropertyPriority := entry_priority entries |}.

(** A declaration class for the examples, in the manner of cssstyle on a few
    properties: a block is a list of entries; an empty value removes the
    property; a property the class does not support is dropped; the value of
    a supported property is stored in the form the class prefers (a colour
    in hexadecimal notation as [rgb(...)]); an entry is overwritten in place
    or appended. *)
Module SampleDeclaration.

Record entry : Type := Entry {
  property : string;
  value : string;
  priority : option string
}.

Definition supported (p : string) : bool :=
  mem p ["color"; "display"; "visibility"].

Definition stored_form (p v : string) : string :=
  if String.eqb p "color" && String.eqb v "#FF0000" then "rgb(255, 0, 0)" else v.

Fixpoint getPropertyValue (d : list entry) (p : string) : string :=
  match d with
  | [] => ""
  | x :: rest => if String.eqb (property x) p then value x
                 else getPropertyValue rest p
  end.

Definition removeProperty (d : list entry) (p : string) : list entry :=
  List.filter (fun x => negb (String.eqb (property x) p)) d.

Fixpoint overwrite (d : list entry) (p v : string) (pr : option string) : list entry :=
  match d with
  | [] => [Entry p v pr]
  | x :: rest => if String.eqb (property x) p then Entry p v pr :: rest
                 else x :: overwrite rest p v pr
  end.

Definition setProperty (d : list entry) (p v : string) (pr : option string)
    : list entry :=
  if String.eqb v "" then removeProperty d p
  else if supported p then overwrite d p (stored_form p v) pr
  else d.

End SampleDeclaration.

Definition sample_cssstyle : CSSStyleDeclaration.class :=
  {| CSSStyleDeclaration.t := list SampleDeclaration.entry;
     CSSStyleDeclaration.new := [];
     CSSStyleDeclaration.setProperty := SampleDeclaration.setProperty;
     CSSStyleDeclaration.getPropertyValue := SampleDeclaration.getPropertyValue |}.

(** The example of the specification: a sheet rule declares [color: red],
    the inline style declares [color: blue]. *)
Definition red_rule : CSSStyleRule :=
  {| selectorText := "p"; rule_style := block_of [("color", "red", "")] |}.

Definition blue_paragraph : Element :=
  {| localName := "p"; style := Some (block_of [("color", "blue", "")]) |}.

Definition sample_styleRules : StyleRules :=
  {| forEachMatchingSheetRuleOfElement := fun _ => [red_rule];
     getResolvedValue := fun _ _ => "visible";
     propertiesWithResolvedValueImplemented := ["visibility"] |}.





(** An object without [toString] and [valueOf], as [Object.create(null)]
    makes one. *)
Definition bare_object : AnyValue :=
  AnyObject (Throw (TypeError "Cannot convert object to primitive value")).

(** What [transformOptions] makes of [sample_options]. *)
Definition sample_transformed : Transformed :=
  {| windowOptions := sample_windowOptions;
     transformed_beforeParse := default_beforeParse |}.

(** Options with a [url] that is no URL. *)
Definition bad_url_options : Options.t :=
  {| Options.contentType := None; Options.url := Some "not a url";
     Options.referrer := None; Options.includeNodeLocations := false;
     Options.cookieJar := Some empty_jar; Options.beforeParse := None |}.


(** A document as [Window] would create it for [sample_windowOptions], with
    the given parse options. *)
Definition sample_document (parseOptions : ParseOptions) : DocumentImpl.t :=
  {| DocumentImpl.parsingMode := "html";
     DocumentImpl.contentType := "text/html";
     DocumentImpl.encoding := "UTF-8";
     DocumentImpl.cookieJar := Some empty_jar;
     DocumentImpl.URL := "about:blank";
     DocumentImpl.lastModified := None;
     DocumentImpl.referrer := "";
     DocumentImpl.concurrentNodeIterators := None;
     DocumentImpl._parseOptions := parseOptions;
     DocumentImpl._defaultView := 0;
     DocumentImpl._global := 0;
     DocumentImpl._origin := "null" |}.

Definition sample_window : WindowObject.t :=
  {| WindowObject._globalObject := 0;
     WindowObject._globalProxy := 0;
     WindowObject._document := 1;
     WindowObject._origin := "null";
     WindowObject._parent := 0;
     WindowObject._top := 0;
     WindowObject._frameElement := None;
     WindowObject._length := 0;
     WindowObject._selection := 0;
     WindowObject.own := ∅ |}.

(** A world put together by hand: a window 0 with its document 1, which is
    also the shared fragment document. *)
Definition world_with_document (parseOptions : ParseOptions) : World :=
  {| windows := {[ 0 := sample_window ]};
     documents := {[ 1 := sample_document parseOptions ]};
     next_ref := 2;
     sharedFragmentDocument := Some 1;
     log := [] |}.

(** A view of four bytes that start with the UTF-8 byte-order mark, one
    byte into its buffer. *)
Definition marked_view : BinaryData :=
  ArrayBufferView [Byte.x00; Byte.xef; Byte.xbb; Byte.xbf; Byte.x3c; Byte.x70] 1 4.

(** text/html;charset=utf-8. *)
Definition text_html_utf8 : MIMEType :=
  {| mime_type := "text"; mime_subtype := "html";
     mime_parameters := [("charset", "utf-8")] |}.

(* ===================================================================== *)
(** * Part II: properties *)
(* ===================================================================== *)

(** ** getComputedStyle *)

(** Each loop of the function is a run of [setProperty] calls. *)
Lemma copyBlock_writes (c : CSSStyleDeclaration.class) (block : SourceBlock.t)
    (declaration : CSSStyleDeclaration.t c) :
  copyBlock c block declaration = fold_left (write c) (blockWrites block) declaration.
Proof.
  unfold copyBlock, blockWrites. revert declaration.
  induction (SourceBlock.items block) as [|p names IH]; intros declaration.
  - reflexivity.
  - cbn [map fold_left]. now rewrite IH.
Qed.


Lemma applyResolvedValues_writes (c : CSSStyleDeclaration.class) (sr : StyleRules)
    (elt : Element) (declaration : CSSStyleDeclaration.t c) :
  applyResolvedValues c sr elt declaration =
  fold_left (write c) (resolvedWrites sr elt) declaration.
Proof.
  unfold applyResolvedValues, resolvedWrites. revert declaration.
  induction (propertiesWithResolvedValueImplemented sr) as [|p names IH];
    intros declaration.
  - reflexivity.
  - cbn [map fold_left]. now rewrite IH.
Qed.

(** A value survives the calls that leave it alone. *)
Lemma value_kept_by_writes (c : CSSStyleDeclaration.class) (p : string)
    (writes : list Write) (declaration : CSSStyleDeclaration.t c) :
  (forall w d, In w writes ->
     CSSStyleDeclaration.getPropertyValue c (write c d w) p =
     CSSStyleDeclaration.getPropertyValue c d p) ->
  CSSStyleDeclaration.getPropertyValue c (fold_left (write c) writes declaration) p =
  CSSStyleDeclaration.getPropertyValue c declaration p.
Proof.
  revert declaration. induction writes as [|w writes IH]; intros declaration Hkeep.
  - reflexivity.
  - cbn [fold_left]. rewrite IH.
    + apply Hkeep. now left.
    + intros w' d Hin. apply Hkeep. now right.
Qed.


(** The sample class keeps the value it is given for a property it
    supports. *)
Lemma sample_overwrite_value (d : list SampleDeclaration.entry) (p v : string)
    (pr : option string) :
  SampleDeclaration.getPropertyValue (SampleDeclaration.overwrite d p v pr) p = v.
Proof.
  induction d as [|x d IH]; cbn [SampleDeclaration.overwrite].
  - cbn. now rewrite String.eqb_refl.
  - destruct (String.eqb (SampleDeclaration.property x) p) eqn:Hx;
      cbn [SampleDeclaration.getPropertyValue SampleDeclaration.property
           SampleDeclaration.value].
    + now rewrite String.eqb_refl.
    + now rewrite Hx.
Qed.

(* --------------------------------------------------------------------- *)
(** ** MIME types *)
(* --------------------------------------------------------------------- *)

(** A MIME type is never both HTML and XML. *)
Lemma isHTML_not_isXML (m : MIMEType) : isHTML m = true -> isXML m = false.
Proof.
  unfold isHTML, isXML. intros H.
  apply andb_true_iff in H as [Hsub Hty].
  apply String.eqb_eq in Hsub. rewrite Hsub. reflexivity.
Qed.

Lemma isXML_not_isHTML (m : MIMEType) : isXML m = true -> isHTML m = false.
Proof.
  intros Hx. destruct (isHTML m) eqn:Hh; [|reflexivity].
  apply isHTML_not_isXML in Hh. congruence.
Qed.

(* --------------------------------------------------------------------- *)
(** ** normalizeHTML *)
(* --------------------------------------------------------------------- *)

(** Without a byte-order mark, a transport label and an in-document hint,
    sniffing answers the default. *)
Lemma sniffHTMLEncoding_default (h : Host) (buffer : list Byte.byte)
    (defaultEncoding : string) :
  getBOMEncoding buffer = None ->
  prescanMetaCharset h buffer = None ->
  sniffHTMLEncoding h buffer defaultEncoding None = defaultEncoding.
Proof.
  intros Hbom Hscan. unfold sniffHTMLEncoding. now rewrite Hbom, Hscan.
Qed.

(** A byte-order mark wins over the transport label and the default. *)
Lemma sniffHTMLEncoding_BOM (h : Host) (buffer : list Byte.byte)
    (defaultEncoding name : string) (label : option string) :
  getBOMEncoding buffer = Some name ->
  sniffHTMLEncoding h buffer defaultEncoding label = name.
Proof.
  intros Hbom. unfold sniffHTMLEncoding. rewrite Hbom. now destruct label.
Qed.

(** C5.  The normalizer always answers with an encoding.  Text is used as it
    is, with the label UTF-8 and without sniffing.  For bytes with no
    byte-order mark, no charset parameter on the content type and no
    in-document hint, the encoding is UTF-8 when the content type is XML and
    windows-1252 when it is HTML. *)
Theorem normalizeHTML_encoding (h : Host) (mimeType : MIMEType) :
  (forall s,
     normalizeHTML h (Plain (Text s)) mimeType =
     {| Normalized.html := s; Normalized.encoding := "UTF-8" |}) /\
  (forall b,
     getBOMEncoding (Buffer_from b) = None ->
     parameters_get (mime_parameters mimeType) "charset" = None ->
     prescanMetaCharset h (Buffer_from b) = None ->
     (isXML mimeType = true ->
      Normalized.encoding (normalizeHTML h (Binary b) mimeType) = "UTF-8") /\
     (isHTML mimeType = true ->
      Normalized.encoding (normalizeHTML h (Binary b) mimeType) = "windows-1252")).
Proof.
  split.
  - reflexivity.
  - intros b Hbom Hlabel Hscan. unfold normalizeHTML. cbn [Normalized.encoding].
    rewrite Hlabel, (sniffHTMLEncoding_default _ _ _ Hbom Hscan).
    split; intros Hm.
    + now rewrite Hm.
    + now rewrite (isHTML_not_isXML _ Hm).
Qed.

(** On the inputs of [InputValue] the two functions agree. *)
Lemma normalizeHTML_any_of_input (h : Host) (input : InputValue) (mimeType : MIMEType) :
  normalizeHTML_any h (any_of_input input) mimeType =
  Normal (normalizeHTML h input mimeType).
Proof.
  destruct input as [b|v]; [reflexivity|].
  destruct v as [| |[|]| |]; reflexivity.
Qed.

(** C10, as amended.  An input left out is the empty markup string.  A
    value that is neither an [ArrayBuffer] nor a view over one goes through
    string conversion: [null] becomes "null", a boolean "true" or "false", a
    string stays as it is, a number becomes its decimal text, a symbol its
    descriptive string, an object what its own conversion returns.  When
    that conversion throws, the normalizer throws the same exception.
    Whenever it returns, the encoding label is UTF-8. *)
Theorem normalizeHTML_plain_input (h : Host) (mimeType : MIMEType) :
  normalizeHTML_any h (AnyPlain AnyUndefined) mimeType =
    Normal {| Normalized.html := ""; Normalized.encoding := "UTF-8" |} /\
  normalizeHTML_any h (AnyPlain AnyNull) mimeType =
    Normal {| Normalized.html := "null"; Normalized.encoding := "UTF-8" |} /\
  normalizeHTML_any h (AnyPlain (AnyBoolean true)) mimeType =
    Normal {| Normalized.html := "true"; Normalized.encoding := "UTF-8" |} /\
  normalizeHTML_any h (AnyPlain (AnyBoolean false)) mimeType =
    Normal {| Normalized.html := "false"; Normalized.encoding := "UTF-8" |} /\
  (forall s,
     normalizeHTML_any h (AnyPlain (AnyString s)) mimeType =
     Normal {| Normalized.html := s; Normalized.encoding := "UTF-8" |}) /\
  (forall decimal,
     normalizeHTML_any h (AnyPlain (AnyNumber decimal)) mimeType =
     Normal {| Normalized.html := decimal; Normalized.encoding := "UTF-8" |}) /\
  (forall description,
     normalizeHTML_any h (AnyPlain (AnySymbol description)) mimeType =
     Normal {| Normalized.html := ("Symbol(" ++ description ++ ")")%string;
               Normalized.encoding := "UTF-8" |}) /\
  (forall s,
     normalizeHTML_any h (AnyPlain (AnyObject (Normal s))) mimeType =
     Normal {| Normalized.html := s; Normalized.encoding := "UTF-8" |}) /\
  (forall e,
     normalizeHTML_any h (AnyPlain (AnyObject (Throw e))) mimeType = Throw e) /\
  (forall v n,
     normalizeHTML_any h (AnyPlain v) mimeType = Normal n ->
     Normalized.encoding n = "UTF-8") /\
  (forall input options W,
     normalizeHTML_any h (any_of_input input) mimeType =
       Normal (normalizeHTML h input mimeType) /\
     JSDOM_constructor h (Plain Undefined) options W =
       JSDOM_constructor h (Plain (Text "")) options W).
Proof.
  repeat split; try reflexivity.
  - intros v n. destruct v as [| |[|]| | | |[s|e]]; cbn; intros [= <-] || discriminate;
      reflexivity.
  - apply normalizeHTML_any_of_input.
Qed.

(* --------------------------------------------------------------------- *)
(** ** transformOptions and the checks of the constructor *)
(* --------------------------------------------------------------------- *)

(** A failure of [transformOptions] is the failure of the constructor, and
    nothing has been created or called by then. *)
Lemma JSDOM_constructor_transformOptions_throws (h : Host) (input : InputValue)
    (options : Options.t) (W : World) (mimeType : MIMEType) (e : Exn) :
  MIMEType_new h (contentType_or_default options) = Normal mimeType ->
  transformOptions h options
    (Normalized.encoding (normalizeHTML h input mimeType)) mimeType = Throw e ->
  JSDOM_constructor h input options W = (Throw e, W).
Proof.
  unfold contentType_or_default. intros Hmime Ht.
  unfold JSDOM_constructor, bind, lift. now rewrite Hmime, Ht.
Qed.

Lemma JSDOM_constructor_MIMEType_throws (h : Host) (input : InputValue)
    (options : Options.t) (W : World) (e : Exn) :
  MIMEType_new h (contentType_or_default options) = Throw e ->
  JSDOM_constructor h input options W = (Throw e, W).
Proof.
  unfold contentType_or_default. intros Hmime.
  unfold JSDOM_constructor, bind, lift. now rewrite Hmime.
Qed.

(** C4.  When the content type parses to a MIME type that is neither HTML nor
    XML, the constructor throws the [RangeError] of [transformOptions]; the
    world is as before: no window or document was created, no collaborator
    was called. *)
Theorem constructor_rejects_other_content_types (h : Host) (input : InputValue)
    (options : Options.t) (W : World) (mimeType : MIMEType) :
  MIMEType_new h (contentType_or_default options) = Normal mimeType ->
  isHTML mimeType = false ->
  isXML mimeType = false ->
  JSDOM_constructor h input options W = (Throw (notHTMLorXML options), W).
Proof.
  intros Hmime Hhtml Hxml.
  apply (JSDOM_constructor_transformOptions_throws _ _ _ _ _ _ Hmime).
  unfold transformOptions. now rewrite Hhtml, Hxml.
Qed.

(** C7, as amended.  With [includeNodeLocations] set and an XML content type
    the constructor throws before anything is created or called.  What it
    throws is the [TypeError] about [includeNodeLocations] when the [url] and
    [referrer] options (where given) parse; otherwise it is what [new URL]
    threw, since the URLs are parsed first. *)
Theorem includeNodeLocations_with_XML_fails (h : Host) (input : InputValue)
    (options : Options.t) (W : World) (mimeType : MIMEType) :
  MIMEType_new h (contentType_or_default options) = Normal mimeType ->
  isXML mimeType = true ->
  Options.includeNodeLocations options = true ->
  JSDOM_constructor h input options W =
  (Throw match invalidURL h options with
         | Some e => e
         | None => locationsWithXML
         end, W).
Proof.
  intros Hmime Hxml Hloc.
  apply (JSDOM_constructor_transformOptions_throws _ _ _ _ _ _ Hmime).
  unfold transformOptions, invalidURL.
  rewrite Hxml, (isXML_not_isHTML _ Hxml), Hloc. cbn [negb andb].
  destruct (Options.url options) as [u|]; [destruct (URL_href h u)|];
    cbn [cbind]; try reflexivity;
    (destruct (Options.referrer options) as [r|]; [destruct (URL_href h r)|]);
    reflexivity.
Qed.

(** Without a [cookieJar] option and without a binding for [CookieJar],
    [transformOptions] throws; with an HTML type and valid URLs, it throws
    the [ReferenceError] for [CookieJar]. *)
Lemma transformOptions_without_cookieJar (h : Host) (options : Options.t)
    (encoding : string) (m : MIMEType) :
  resolves h "CookieJar" = false ->
  Options.cookieJar options = None ->
  exists e,
    transformOptions h options encoding m = Throw e /\
    (isHTML m = true -> invalidURL h options = None ->
     e = ReferenceError "CookieJar is not defined").
Proof.
  intros Hscope Hjar.
  unfold transformOptions, invalidURL, new_CookieJar. rewrite Hjar, Hscope.
  destruct (isHTML m) eqn:Hh.
  - cbn [negb andb].
    destruct (Options.url options) as [u|]; [destruct (URL_href h u)|];
      cbn [cbind];
      try (eexists; split; [reflexivity | intros; congruence]);
      (destruct (Options.referrer options) as [r|]; [destruct (URL_href h r)|]);
      cbn [cbind];
      try (eexists; split; [reflexivity | intros; congruence]);
      destruct (Options.includeNodeLocations options); cbn [cbind];
      eexists; (split; [reflexivity | intros; congruence]).
  - destruct (isXML m) eqn:Hx; cbn [negb andb].
    + destruct (Options.url options) as [u|]; [destruct (URL_href h u)|];
        cbn [cbind];
        try (eexists; split; [reflexivity | intros; congruence]);
        (destruct (Options.referrer options) as [r|]; [destruct (URL_href h r)|]);
        cbn [cbind];
        try (eexists; split; [reflexivity | intros; congruence]);
        destruct (Options.includeNodeLocations options); cbn [cbind];
        eexists; (split; [reflexivity | intros; congruence]).
    + eexists; split; [reflexivity | intros; congruence].
Qed.

(** C6, on the code.  [CookieJar] is bound neither in the module nor, on a
    host like Node.js, on the global object: when the [cookieJar] option is
    left out, [transformOptions] never returns, and the constructor throws
    before a window exists.  With the other options valid the exception is the
    [ReferenceError] for [CookieJar]. *)
Theorem cookieJar_default_is_unbound (h : Host) (input : InputValue)
    (options : Options.t) (W : World) :
  resolves h "CookieJar" = false ->
  Options.cookieJar options = None ->
  exists e,
    JSDOM_constructor h input options W = (Throw e, W) /\
    (forall mimeType,
       MIMEType_new h (contentType_or_default options) = Normal mimeType ->
       isHTML mimeType = true ->
       invalidURL h options = None ->
       e = ReferenceError "CookieJar is not defined").
Proof.
  intros Hscope Hjar.
  destruct (MIMEType_new h (contentType_or_default options)) as [m|e] eqn:Hmime.
  2:{ exists e. split; [now apply JSDOM_constructor_MIMEType_throws|].
      intros m Hm. discriminate. }
  destruct (transformOptions_without_cookieJar h options
              (Normalized.encoding (normalizeHTML h input m)) m Hscope Hjar)
    as (e & Ht & He).
  exists e. split.
  - now apply (JSDOM_constructor_transformOptions_throws _ _ _ _ _ _ Hmime).
  - intros m' Hm' Hh Hu. assert (m' = m) by congruence. subst m'. now apply He.
Qed.

(** On a host that binds [CookieJar], the default is a new, empty store. *)
Lemma cookieJar_default_when_bound (h : Host) (options : Options.t)
    (encoding : string) (mimeType : MIMEType) (t : Transformed) :
  resolves h "CookieJar" = true ->
  Options.cookieJar options = None ->
  transformOptions h options encoding mimeType = Normal t ->
  WindowOptions.cookieJar (windowOptions t) = Some {| jar_cookies := [] |}.
Proof.
  intros Hscope Hjar. unfold transformOptions, new_CookieJar.
  rewrite Hjar, Hscope.
  destruct (negb (isHTML mimeType) && negb (isXML mimeType)); [discriminate|].
  destruct (Options.url options) as [u|]; [destruct (URL_href h u)|];
    cbn [cbind]; try discriminate;
    (destruct (Options.referrer options) as [r|]; [destruct (URL_href h r)|]);
    cbn [cbind]; try discriminate;
    (destruct (Options.includeNodeLocations options);
     [destruct (String.eqb _ "xml")|]);
    cbn [cbind]; try discriminate;
    intros [= <-]; reflexivity.
Qed.

(** A cookie store that is supplied is the one of the window options. *)
Lemma cookieJar_supplied (h : Host) (options : Options.t)
    (encoding : string) (mimeType : MIMEType) (t : Transformed) (jar : CookieJar) :
  Options.cookieJar options = Some jar ->
  transformOptions h options encoding mimeType = Normal t ->
  WindowOptions.cookieJar (windowOptions t) = Some jar.
Proof.
  intros Hjar. unfold transformOptions. rewrite Hjar.
  destruct (negb (isHTML mimeType) && negb (isXML mimeType)); [discriminate|].
  destruct (Options.url options) as [u|]; [destruct (URL_href h u)|];
    cbn [cbind]; try discriminate;
    (destruct (Options.referrer options) as [r|]; [destruct (URL_href h r)|]);
    cbn [cbind]; try discriminate;
    (destruct (Options.includeNodeLocations options);
     [destruct (String.eqb _ "xml")|]);
    cbn [cbind]; try discriminate;
    intros [= <-]; reflexivity.
Qed.

(** The location flag of the parse options is the [includeNodeLocations]
    option. *)
Lemma transformOptions_sourceCodeLocationInfo (h : Host) (options : Options.t)
    (encoding : string) (mimeType : MIMEType) (t : Transformed) :
  transformOptions h options encoding mimeType = Normal t ->
  sourceCodeLocationInfo (WindowOptions.parseOptions (windowOptions t)) =
  Options.includeNodeLocations options.
Proof.
  unfold transformOptions.
  destruct (negb (isHTML mimeType) && negb (isXML mimeType)); [discriminate|].
  destruct (Options.url options) as [u|]; [destruct (URL_href h u)|];
    cbn [cbind]; try discriminate;
    (destruct (Options.referrer options) as [r|]; [destruct (URL_href h r)|]);
    cbn [cbind]; try discriminate;
    (destruct (Options.includeNodeLocations options);
     [destruct (String.eqb _ "xml")|]);
    cbn [cbind]; try discriminate;
    (destruct (Options.cookieJar options); [|destruct (new_CookieJar h)]);
    cbn [cbind]; try discriminate;
    intros [= <-]; reflexivity.
Qed.

(* --------------------------------------------------------------------- *)
(** ** The Window constructor *)
(* --------------------------------------------------------------------- *)

Ltac unfold_js H :=
  cbv beta iota zeta delta
    [bind ret throw lift external call_hook fresh store_document store_window
     set_sharedFragmentDocument window_field document_field completion_of
     record_event windows documents next_ref sharedFragmentDocument log] in H.

(** The next call of a run: the one whose log has no call pending. *)
Ltac next_call H :=
  match type of H with
  | context [perform ?h ?l ?c] =>
      lazymatch l with
      | context [perform _ _ _] => fail
      | _ => destruct (perform h l c) eqn:?
      end
  end;
  cbv beta iota in H.

(** Reading a finished run off its equation. *)
Ltac split_run H :=
  apply pair_equal_spec in H as [? ?]; subst;
  cbv beta iota delta [windows documents next_ref sharedFragmentDocument log].





(* --------------------------------------------------------------------- *)
(** ** The constructor after its checks *)
(* --------------------------------------------------------------------- *)

(** What the constructor does once [transformOptions] has returned. *)
Lemma JSDOM_constructor_after_transformOptions (h : Host) (input : InputValue)
    (options : Options.t) (W : World) (mimeType : MIMEType) (t : Transformed) :
  MIMEType_new h (contentType_or_default options) = Normal mimeType ->
  transformOptions h options
    (Normalized.encoding (normalizeHTML h input mimeType)) mimeType = Normal t ->
  JSDOM_constructor h input options W =
  (do this_window <- createWindow h (windowOptions t);
   do _document <- window_field "_document" WindowObject._document this_window;
   let documentImpl := implForWrapper (VDocument _document) in
   do _globalProxy <- window_field "_globalProxy" WindowObject._globalProxy this_window;
   do _ <- call_hook (transformed_beforeParse t) _globalProxy;
   do _ <- external h (parseIntoDocument
                         (Normalized.html (normalizeHTML h input mimeType))
                         documentImpl);
   do _ <- match documentImpl with
           | Some documentImpl => external h (documentImpl_close documentImpl)
           | None => throw (undefinedProperty "close")
           end;
   ret {| window_slot := this_window |})%js W.
Proof.
  unfold contentType_or_default. intros Hmime Ht.
  unfold JSDOM_constructor, bind at 1 2, lift. now rewrite Hmime, Ht.
Qed.



(* --------------------------------------------------------------------- *)
(** ** nodeLocation *)
(* --------------------------------------------------------------------- *)


(** X21.  The method itself, on an instance whose window and document
    exist: it answers by the location flag of the document's parse options
    and changes nothing.  When those parse options are the ones
    [transformOptions] made of the caller's options, the flag is
    [includeNodeLocations]. *)
Theorem nodeLocation_reads_the_flag (h : Host) (options : Options.t)
    (encoding : string) (mimeType : MIMEType) (t : Transformed)
    (dom : JSDOM) (node : Node) (W : World)
    (object : WindowObject.t) (document : DocumentImpl.t) :
  transformOptions h options encoding mimeType = Normal t ->
  windows W !! window_slot dom = Some object ->
  documents W !! WindowObject._document object = Some document ->
  DocumentImpl._parseOptions document = WindowOptions.parseOptions (windowOptions t) ->
  nodeLocation dom node W =
  (if Options.includeNodeLocations options
   then Normal (sourceCodeLocation node)
   else Throw locationsNotSaved,
   W).
Proof.
  intros Ht Hw Hd Hpo.
  pose proof (transformOptions_sourceCodeLocationInfo _ _ _ _ _ Ht) as Hflag.
  unfold nodeLocation, bind, window_field, document_field, implForWrapper.
  rewrite Hw. cbv beta iota. rewrite Hd. cbv beta iota.
  rewrite Hpo, Hflag. now destruct (Options.includeNodeLocations options).
Qed.

(* --------------------------------------------------------------------- *)
(** ** JSDOM.fragment *)
(* --------------------------------------------------------------------- *)

(** With the shared document in place no instance is constructed. *)
Lemma fragment_reuses_shared_document (h : Host) (markup : option string)
    (W : World) (document : nat) :
  sharedFragmentDocument W = Some document ->
  fragment h markup W = fragment_in h document (string_or_empty markup) W.
Proof.
  intros Hs. unfold fragment, fragment_in, string_or_empty.
  unfold bind at 1 2. now rewrite Hs.
Qed.

Lemma fragment_in_run (h : Host) (document : nat) (markup : string)
    (W W' : World) (r : Completion DocumentFragment) :
  fragment_in h document markup W = (r, W') ->
  windows W' = windows W /\
  documents W' = documents W /\
  sharedFragmentDocument W' = sharedFragmentDocument W /\
  next_ref W' = S (next_ref W) /\
  forall f, r = Normal f ->
    fragment_document f = document /\ fragment_host f = next_ref W.
Proof.
  destruct W as [ws ds n sh lg]. intros H.
  unfold fragment_in in H. unfold_js H.
  next_call H; [split_run H; repeat split; intros; simplify_eq|].
  next_call H; [split_run H; repeat split; intros; simplify_eq|].
  split_run H. repeat split; intros; simplify_eq; reflexivity.
Qed.

(** C9, on the code.  On a host that does not bind [CookieJar], a call of
    [fragment] made while no shared document exists throws and leaves the
    world as it was: the shared document is never created, and every later
    call attempts the construction again. *)
Theorem fragment_needs_CookieJar (h : Host) (markup : option string) (W : World) :
  resolves h "CookieJar" = false ->
  sharedFragmentDocument W = None ->
  exists e, fragment h markup W = (Throw e, W).
Proof.
  intros Hscope Hs.
  assert (He : exists e,
    JSDOM_constructor h (Plain Undefined) Options.empty W = (Throw e, W)).
  { destruct (MIMEType_new h (contentType_or_default Options.empty))
      as [m|e] eqn:Hmime.
    - destruct (transformOptions_without_cookieJar h Options.empty
                  (Normalized.encoding (normalizeHTML h (Plain Undefined) m)) m
                  Hscope eq_refl) as (e & Ht & _).
      exists e. now apply (JSDOM_constructor_transformOptions_throws _ _ _ _ _ _ Hmime).
    - exists e. now apply JSDOM_constructor_MIMEType_throws. }
  destruct He as [e He].
  exists e. unfold fragment. unfold bind at 1 2. rewrite Hs.
  unfold bind at 1. now rewrite He.
Qed.


(* --------------------------------------------------------------------- *)
(** ** The theorems at work *)
(* --------------------------------------------------------------------- *)



(** [String(Object.create(null))] throws, and so does the normalizer. *)
Lemma normalizeHTML_plain_input_counterexample :
  normalizeHTML_any sample_host (AnyPlain bare_object) text_html =
  Throw (TypeError "Cannot convert object to primitive value").
Proof.
  reflexivity.
Qed.




Lemma constructor_rejects_other_content_types_witness :
  JSDOM_constructor sample_host sample_input text_plain_options empty_world =
  (Throw (notHTMLorXML text_plain_options),
   empty_world).
Proof.
  apply (constructor_rejects_other_content_types _ _ _ _ text_plain); reflexivity.
Defined.

Lemma normalizeHTML_encoding_witness :
  Normalized.encoding
    (normalizeHTML sample_host (Binary (AnArrayBuffer sample_bytes)) text_html) =
    "windows-1252" /\
  Normalized.encoding
    (normalizeHTML sample_host (Binary (AnArrayBuffer sample_bytes)) application_xml) =
    "UTF-8".
Proof.
  split.
  - destruct (normalizeHTML_encoding sample_host text_html) as [_ H].
    destruct (H (AnArrayBuffer sample_bytes) eq_refl eq_refl eq_refl) as [_ Hhtml].
    exact (Hhtml eq_refl).
  - destruct (normalizeHTML_encoding sample_host application_xml) as [_ H].
    destruct (H (AnArrayBuffer sample_bytes) eq_refl eq_refl eq_refl) as [Hxml _].
    exact (Hxml eq_refl).
Defined.

Lemma cookieJar_default_is_unbound_witness :
  JSDOM_constructor sample_host sample_input Options.empty empty_world =
  (Throw (ReferenceError "CookieJar is not defined"), empty_world).
Proof.
  destruct (cookieJar_default_is_unbound sample_host sample_input Options.empty
              empty_world eq_refl eq_refl) as (e & Hrun & Hwhich).
  rewrite Hrun. now rewrite (Hwhich text_html eq_refl eq_refl eq_refl).
Defined.

Lemma includeNodeLocations_with_XML_fails_witness :
  JSDOM_constructor sample_host sample_input xml_locations_options empty_world =
  (Throw locationsWithXML, empty_world).
Proof.
  exact (includeNodeLocations_with_XML_fails sample_host sample_input
           xml_locations_options empty_world application_xml eq_refl eq_refl eq_refl).
Defined.

(** C7 as the specification has it fails: with an XML content type,
    [includeNodeLocations] set and a [url] that does not parse, the
    constructor throws what [new URL] throws, not the error about
    [includeNodeLocations]. *)
Lemma includeNodeLocations_with_XML_counterexample :
  MIMEType_new sample_host (contentType_or_default xml_locations_bad_url_options) =
    Normal application_xml /\
  isXML application_xml = true /\
  Options.includeNodeLocations xml_locations_bad_url_options = true /\
  JSDOM_constructor sample_host sample_input xml_locations_bad_url_options empty_world =
    (Throw (TypeError "Invalid URL"), empty_world) /\
  TypeError "Invalid URL" <> locationsWithXML.
Proof.
  repeat split; try discriminate; vm_compute; reflexivity.
Qed.

Lemma fragment_needs_CookieJar_witness :
  exists e,
    fragment sample_host (Some "<p>hi</p>") empty_world = (Throw e, empty_world).
Proof.
  apply fragment_needs_CookieJar; reflexivity.
Defined.

(** Two calls of [fragment] in a row on the sample host: both throw, and
    the shared document is still missing. *)
Example fragment_twice_on_sample_host :
  fragment sample_host (Some "<p>hi</p>") empty_world =
    (Throw (ReferenceError "CookieJar is not defined"), empty_world) /\
  fragment sample_host (Some "<b>again</b>")
    (snd (fragment sample_host (Some "<p>hi</p>") empty_world)) =
    (Throw (ReferenceError "CookieJar is not defined"), empty_world) /\
  sharedFragmentDocument
    (snd (fragment sample_host (Some "<b>again</b>")
            (snd (fragment sample_host (Some "<p>hi</p>") empty_world)))) = None.
Proof.
  repeat split; vm_compute; reflexivity.
Qed.

(* --------------------------------------------------------------------- *)
(** ** More on transformOptions *)
(* --------------------------------------------------------------------- *)

(** X1.  What [transformOptions] returns, when it returns: the content type and
    parsing mode come from the MIME type, [url] and [referrer] are the
    serialized URLs of the options or the defaults about:blank and the empty
    string, the encoding is the one passed in, the cookie store and the hook
    are those of the options where given, and the remaining settings are
    fixed. *)
Theorem transformOptions_result (h : Host) (options : Options.t) (encoding : string)
    (mimeType : MIMEType) (t : Transformed) :
  transformOptions h options encoding mimeType = Normal t ->
  (isHTML mimeType = true \/ isXML mimeType = true) /\
  WindowOptions.contentType (windowOptions t) = essence mimeType /\
  WindowOptions.parsingMode (windowOptions t) =
    (if isHTML mimeType then "html" else "xml") /\
  WindowOptions.encoding (windowOptions t) = encoding /\
  match Options.url options with
  | Some u => URL_href h u = Normal (WindowOptions.url (windowOptions t))
  | None => WindowOptions.url (windowOptions t) = "about:blank"
  end /\
  match Options.referrer options with
  | Some r => URL_href h r = Normal (WindowOptions.referrer (windowOptions t))
  | None => WindowOptions.referrer (windowOptions t) = ""
  end /\
  WindowOptions.parseOptions (windowOptions t) =
    parseOptions_for (Options.includeNodeLocations options) /\
  match Options.cookieJar options with
  | Some jar => WindowOptions.cookieJar (windowOptions t) = Some jar
  | None => WindowOptions.cookieJar (windowOptions t) = Some {| jar_cookies := [] |}
  end /\
  transformed_beforeParse t =
    match Options.beforeParse options with
    | Some hook => hook
    | None => default_beforeParse
    end /\
  WindowOptions.runScripts (windowOptions t) = None /\
  WindowOptions.pretendToBeVisual (windowOptions t) = false /\
  WindowOptions.storageQuota (windowOptions t) = 5000000%Z /\
  WindowOptions.resourceLoader (windowOptions t) = None /\
  WindowOptions.virtualConsole (windowOptions t) = None.
Proof.
  unfold transformOptions, new_CookieJar, parseOptions_for.
  destruct (isHTML mimeType) eqn:Hh; [|destruct (isXML mimeType) eqn:Hx];
    cbn [negb andb]; try discriminate;
    (destruct (Options.url options) as [u|]; [destruct (URL_href h u) eqn:Hu|]);
    cbn [cbind]; try discriminate;
    (destruct (Options.referrer options) as [r|]; [destruct (URL_href h r) eqn:Hr|]);
    cbn [cbind]; try discriminate;
    (destruct (Options.includeNodeLocations options); cbn [cbind String.eqb Ascii.eqb Bool.eqb WindowOptions.parsingMode WindowOptions.set_parsingMode WindowOptions.set_url WindowOptions.set_referrer WindowOptions.set_contentType];
     try discriminate);
    (destruct (Options.cookieJar options); [|destruct (resolves h "CookieJar")]);
    cbn [cbind]; try discriminate;
    intros [= <-]; cbn; destruct (Options.beforeParse options); auto 20.
Qed.

(* --------------------------------------------------------------------- *)
(** ** More on the constructor *)
(* --------------------------------------------------------------------- *)

(** X2.  A [url] or [referrer] option that [new URL] refuses makes the
    constructor throw what [new URL] threw, before anything is created or
    called; [url] is looked at first. *)
Theorem constructor_rejects_invalid_URL (h : Host) (input : InputValue)
    (options : Options.t) (W : World) (mimeType : MIMEType) (e : Exn) :
  MIMEType_new h (contentType_or_default options) = Normal mimeType ->
  isHTML mimeType = true \/ isXML mimeType = true ->
  invalidURL h options = Some e ->
  JSDOM_constructor h input options W = (Throw e, W).
Proof.
  intros Hmime Hkind Hurl.
  apply (JSDOM_constructor_transformOptions_throws _ _ _ _ _ _ Hmime).
  assert (Hcheck : negb (isHTML mimeType) && negb (isXML mimeType) = false).
  { destruct Hkind as [-> | ->]; [reflexivity | apply andb_false_r]. }
  unfold transformOptions. rewrite Hcheck. unfold invalidURL in Hurl.
  destruct (Options.url options) as [u|]; [destruct (URL_href h u)|];
    cbn [cbind]; try congruence;
    (destruct (Options.referrer options) as [r|]; [destruct (URL_href h r)|]);
    cbn [cbind]; congruence.
Qed.

(** The constructor looks at its options only through the content type
    string and [transformOptions]. *)
Lemma JSDOM_constructor_ext (h : Host) (input : InputValue)
    (options1 options2 : Options.t) (W : World) :
  contentType_or_default options1 = contentType_or_default options2 ->
  (forall mimeType encoding,
     MIMEType_new h (contentType_or_default options1) = Normal mimeType ->
     transformOptions h options1 encoding mimeType =
     transformOptions h options2 encoding mimeType) ->
  JSDOM_constructor h input options1 W = JSDOM_constructor h input options2 W.
Proof.
  intros Hct Hto.
  destruct (MIMEType_new h (contentType_or_default options1)) as [m|e] eqn:Hmime.
  2:{ rewrite (JSDOM_constructor_MIMEType_throws _ _ _ _ _ Hmime).
      rewrite Hct in Hmime.
      now rewrite (JSDOM_constructor_MIMEType_throws _ _ _ _ _ Hmime). }
  pose proof (Hto m (Normalized.encoding (normalizeHTML h input m)) eq_refl) as Heq.
  destruct (transformOptions h options1
              (Normalized.encoding (normalizeHTML h input m)) m) as [t|e] eqn:Ht.
  - rewrite (JSDOM_constructor_after_transformOptions _ _ _ _ _ _ Hmime Ht).
    rewrite Hct in Hmime. symmetry in Heq.
    now rewrite (JSDOM_constructor_after_transformOptions _ _ _ _ _ _ Hmime Heq).
  - rewrite (JSDOM_constructor_transformOptions_throws _ _ _ _ _ _ Hmime Ht).
    rewrite Hct in Hmime. symmetry in Heq.
    now rewrite (JSDOM_constructor_transformOptions_throws _ _ _ _ _ _ Hmime Heq).
Qed.

(** X3.  Leaving [contentType] out is the same as giving text/html, on a
    host whose MIME type parser reads that string as HTML. *)
Theorem contentType_defaults_to_text_html (h : Host) (input : InputValue)
    (options : Options.t) (W : World) (mimeType : MIMEType) :
  MIMEType_new h "text/html" = Normal mimeType ->
  isHTML mimeType = true ->
  JSDOM_constructor h input (with_contentType None options) W =
  JSDOM_constructor h input (with_contentType (Some "text/html") options) W.
Proof.
  intros Hmime Hh. apply JSDOM_constructor_ext; [reflexivity|].
  intros m encoding Hm. cbn in Hm. assert (m = mimeType) by congruence. subst m.
  unfold transformOptions. now rewrite Hh.
Qed.

(* --------------------------------------------------------------------- *)
(** ** More on getComputedStyle *)
(* --------------------------------------------------------------------- *)

(** X22.  The second loop over the first.  For a resolved-value property
    [p]: when the class stores [stored] for the call that sets the resolved
    value of [p], and the calls after it (the later resolved-value
    properties and the inline block) leave the value of [p] alone, the
    result holds [stored] for [p], whatever the sheet rules declare for
    it. *)
Theorem getComputedStyle_resolved_value (c : CSSStyleDeclaration.class)
    (sr : StyleRules) (elt : Element) (inline : SourceBlock.t)
    (p stored : string) (before after : list string) :
  style elt = Some inline ->
  propertiesWithResolvedValueImplemented sr = before ++ p :: after ->
  (forall d,
     CSSStyleDeclaration.getPropertyValue c
       (CSSStyleDeclaration.setProperty c d p (getResolvedValue sr elt p) None) p =
     stored) ->
  (forall q d, In q after ->
     CSSStyleDeclaration.getPropertyValue c
       (CSSStyleDeclaration.setProperty c d q (getResolvedValue sr elt q) None) p =
     CSSStyleDeclaration.getPropertyValue c d p) ->
  (forall q d, In q (SourceBlock.items inline) ->
     CSSStyleDeclaration.getPropertyValue c (write c d (blockWrite inline q)) p =
     CSSStyleDeclaration.getPropertyValue c d p) ->
  exists declaration,
    getComputedStyle c sr (AnElement elt) = Normal declaration /\
    CSSStyleDeclaration.getPropertyValue c declaration p = stored.
Proof.
  intros Hstyle Hnames Hstored Hresolved Hinline. eexists. split.
  - unfold getComputedStyle. cbn [Element_convert cbind]. rewrite Hstyle.
    reflexivity.
  - rewrite copyBlock_writes, value_kept_by_writes.
    2:{ intros w d Hin. apply in_map_iff in Hin as (q & <- & Hq).
        now apply Hinline. }
    rewrite applyResolvedValues_writes. unfold resolvedWrites. rewrite Hnames.
    rewrite map_app, fold_left_app. cbn [map fold_left].
    rewrite value_kept_by_writes.
    2:{ intros w d Hin. apply in_map_iff in Hin as (q & <- & Hq).
        now apply Hresolved. }
    apply Hstored.
Qed.

(** The sample class leaves the value of a property alone when another
    property is set. *)
Lemma sample_setProperty_other (d : list SampleDeclaration.entry) (p q v : string)
    (pr : option string) :
  q <> p ->
  SampleDeclaration.getPropertyValue (SampleDeclaration.setProperty d q v pr) p =
  SampleDeclaration.getPropertyValue d p.
Proof.
  intros Hne. unfold SampleDeclaration.setProperty.
  destruct (String.eqb v "").
  - unfold SampleDeclaration.removeProperty.
    induction d as [|x d IH]; [reflexivity|]. cbn [List.filter].
    destruct (String.eqb_spec (SampleDeclaration.property x) q) as [Hq|Hq];
      cbn [negb SampleDeclaration.getPropertyValue].
    + rewrite IH. destruct (String.eqb_spec (SampleDeclaration.property x) p);
        [congruence | reflexivity].
    + now rewrite IH.
  - destruct (SampleDeclaration.supported q); [|reflexivity].
    generalize (SampleDeclaration.stored_form q v) as v'. intros v'.
    induction d as [|x d IH]; cbn [SampleDeclaration.overwrite].
    + cbn. destruct (String.eqb_spec q p); [contradiction | reflexivity].
    + destruct (String.eqb_spec (SampleDeclaration.property x) q) as [Hq|Hq];
        cbn [SampleDeclaration.getPropertyValue SampleDeclaration.property
             SampleDeclaration.value].
      * destruct (String.eqb_spec q p); [contradiction|].
        destruct (String.eqb_spec (SampleDeclaration.property x) p);
          [congruence | reflexivity].
      * now rewrite IH.
Qed.

(* --------------------------------------------------------------------- *)
(** ** More on normalizeHTML *)
(* --------------------------------------------------------------------- *)

(** X15.  How the encoding of binary input is found.  A byte-order mark decides,
    whatever the content type says (UTF-8 for the bytes EF BB BF).  Without
    one, a charset parameter that names an encoding decides.  Without that,
    the in-document hint decides.  The text returned is the bytes decoded
    with the encoding returned. *)
Theorem normalizeHTML_sniffing_order (h : Host) (b : BinaryData) (mimeType : MIMEType) :
  (forall rest,
     Buffer_from b = Byte.xef :: Byte.xbb :: Byte.xbf :: rest ->
     Normalized.encoding (normalizeHTML h (Binary b) mimeType) = "UTF-8") /\
  (forall name,
     getBOMEncoding (Buffer_from b) = Some name ->
     Normalized.encoding (normalizeHTML h (Binary b) mimeType) = name) /\
  (forall label name,
     getBOMEncoding (Buffer_from b) = None ->
     parameters_get (mime_parameters mimeType) "charset" = Some label ->
     labelToName h label = Some name ->
     Normalized.encoding (normalizeHTML h (Binary b) mimeType) = name) /\
  (forall name,
     getBOMEncoding (Buffer_from b) = None ->
     (forall label,
        parameters_get (mime_parameters mimeType) "charset" = Some label ->
        labelToName h label = None) ->
     prescanMetaCharset h (Buffer_from b) = Some name ->
     Normalized.encoding (normalizeHTML h (Binary b) mimeType) = name) /\
  Normalized.html (normalizeHTML h (Binary b) mimeType) =
    decode h (Buffer_from b) (Normalized.encoding (normalizeHTML h (Binary b) mimeType)).
Proof.
  unfold normalizeHTML. cbn [Normalized.encoding Normalized.html].
  repeat split.
  - intros rest Hb. apply sniffHTMLEncoding_BOM. now rewrite Hb.
  - intros name Hbom. now apply sniffHTMLEncoding_BOM.
  - intros label name Hbom Hlabel Hname. unfold sniffHTMLEncoding.
    now rewrite Hbom, Hlabel, Hname.
  - intros name Hbom Hlabel Hscan. unfold sniffHTMLEncoding. rewrite Hbom.
    destruct (parameters_get (mime_parameters mimeType) "charset") as [label|].
    + now rewrite (Hlabel label eq_refl), Hscan.
    + now rewrite Hscan.
Qed.

(* --------------------------------------------------------------------- *)
(** ** More on JSDOM.fragment *)
(* --------------------------------------------------------------------- *)

(** The calls of [fragment] once the shared document is known. *)
Lemma fragment_in_shared_run (h : Host) (document : nat) (markup : string)
    (W W' : World) (r : Completion DocumentFragment) :
  fragment_in h document markup W = (r, W') ->
  exists evs,
    log W' = log W ++ evs /\
    (exists rest,
       [ document_createElement document "template" (next_ref W);
         set_innerHTML (next_ref W) markup ] = map ev_call evs ++ rest) /\
    forall f, r = Normal f ->
      map ev_call evs =
        [ document_createElement document "template" (next_ref W);
          set_innerHTML (next_ref W) markup ].
Proof.
  destruct W as [ws ds n sh lg]. intros H.
  unfold fragment_in in H. unfold_js H.
  next_call H.
  { split_run H. eexists. split; [reflexivity|].
    split; [eexists; reflexivity|]. intros f [=]. }
  next_call H.
  { split_run H. eexists. split; [rewrite <- app_assoc; reflexivity|].
    split; [exists []; reflexivity|]. intros f [=]. }
  split_run H. eexists. split; [rewrite <- app_assoc; reflexivity|].
  split; [exists []; reflexivity|]. intros f _. reflexivity.
Qed.

(** X16.  With the shared document in place, [fragment] constructs nothing:
    it only asks that document for a template element and sets the markup
    (the empty string when none is given) on it; windows, documents and the
    shared document stay as they are, and the fragment returned is the
    content of the new template element. *)
Theorem fragment_with_shared_document (h : Host) (markup : option string)
    (W W' : World) (r : Completion DocumentFragment) (document : nat) :
  sharedFragmentDocument W = Some document ->
  fragment h markup W = (r, W') ->
  windows W' = windows W /\
  documents W' = documents W /\
  sharedFragmentDocument W' = Some document /\
  exists evs,
    log W' = log W ++ evs /\
    (exists rest,
       [ document_createElement document "template" (next_ref W);
         set_innerHTML (next_ref W) (string_or_empty markup) ] =
       map ev_call evs ++ rest) /\
    forall f, r = Normal f ->
      f = {| fragment_host := next_ref W; fragment_document := document |} /\
      map ev_call evs =
        [ document_createElement document "template" (next_ref W);
          set_innerHTML (next_ref W) (string_or_empty markup) ].
Proof.
  intros Hs H. rewrite (fragment_reuses_shared_document _ _ _ _ Hs) in H.
  destruct (fragment_in_run _ _ _ _ _ _ H) as (Hw & Hd & Hsh & _ & Hf).
  destruct (fragment_in_shared_run _ _ _ _ _ _ H) as (evs & Hlog & Hpre & Hall).
  split; [exact Hw|]. split; [exact Hd|]. split; [congruence|].
  exists evs. split; [exact Hlog|]. split; [exact Hpre|].
  intros f Hr. destruct (Hf f Hr) as [Hdoc Hhost]. split; [|now apply (Hall f)].
  destruct f as [fh fd]. cbn in Hdoc, Hhost. congruence.
Qed.

(* --------------------------------------------------------------------- *)
(** ** The Option function *)
(* --------------------------------------------------------------------- *)

#[local] Set Warnings "-clear-no-such-hyp".


(* --------------------------------------------------------------------- *)
(** ** More theorems at work *)
(* --------------------------------------------------------------------- *)

Lemma transformOptions_result_witness :
  WindowOptions.contentType (windowOptions sample_transformed) = essence text_html /\
  WindowOptions.parsingMode (windowOptions sample_transformed) = "html" /\
  WindowOptions.url (windowOptions sample_transformed) = "about:blank" /\
  WindowOptions.referrer (windowOptions sample_transformed) = "" /\
  WindowOptions.cookieJar (windowOptions sample_transformed) = Some empty_jar /\
  WindowOptions.storageQuota (windowOptions sample_transformed) = 5000000%Z.
Proof.
  destruct (transformOptions_result sample_host sample_options "UTF-8" text_html
              sample_transformed eq_refl)
    as (_ & Hct & Hmode & _ & Hurl & Href & _ & Hjar & _ & _ & _ & Hquota & _).
  repeat split; assumption.
Defined.

Lemma constructor_rejects_invalid_URL_witness :
  JSDOM_constructor sample_host sample_input bad_url_options empty_world =
  (Throw (TypeError "Invalid URL"), empty_world).
Proof.
  exact (constructor_rejects_invalid_URL sample_host sample_input bad_url_options
           empty_world text_html (TypeError "Invalid URL")
           eq_refl (or_introl eq_refl) eq_refl).
Defined.

Lemma contentType_defaults_to_text_html_witness :
  JSDOM_constructor sample_host sample_input
    (with_contentType None sample_options) empty_world =
  JSDOM_constructor sample_host sample_input
    (with_contentType (Some "text/html") sample_options) empty_world.
Proof.
  exact (contentType_defaults_to_text_html sample_host sample_input sample_options
           empty_world text_html eq_refl eq_refl).
Defined.

Lemma normalizeHTML_sniffing_order_witness :
  Normalized.encoding (normalizeHTML sample_host (Binary marked_view) text_html) =
    "UTF-8" /\
  Normalized.encoding
    (normalizeHTML sample_host (Binary (AnArrayBuffer sample_bytes)) text_html_utf8) =
    "UTF-8".
Proof.
  split.
  - destruct (normalizeHTML_sniffing_order sample_host marked_view text_html)
      as (Hmark & _).
    exact (Hmark [Byte.x3c] eq_refl).
  - destruct (normalizeHTML_sniffing_order sample_host (AnArrayBuffer sample_bytes)
                text_html_utf8) as (_ & _ & Hlabel & _).
    exact (Hlabel "utf-8" "UTF-8" eq_refl eq_refl eq_refl).
Defined.


(** On the paragraph of the example the resolved value of [visibility]
    is in the result. *)
Lemma getComputedStyle_resolved_value_witness :
  exists declaration,
    getComputedStyle sample_cssstyle sample_styleRules (AnElement blue_paragraph) =
      Normal declaration /\
    CSSStyleDeclaration.getPropertyValue sample_cssstyle declaration "visibility" =
      "visible".
Proof.
  apply (getComputedStyle_resolved_value sample_cssstyle sample_styleRules
           blue_paragraph (block_of [("color", "blue", "")])
           "visibility" "visible" [] []).
  - reflexivity.
  - reflexivity.
  - intros d. apply sample_overwrite_value.
  - intros q d [].
  - intros q d [<-|[]]. apply sample_setProperty_other. discriminate.
Defined.

Lemma nodeLocation_reads_the_flag_witness :
  nodeLocation {| window_slot := 0 |} sample_node
    (world_with_document (parseOptions_for false)) =
    (Throw locationsNotSaved, world_with_document (parseOptions_for false)) /\
  nodeLocation {| window_slot := 0 |} sample_node
    (world_with_document (parseOptions_for true)) =
    (Normal (sourceCodeLocation sample_node),
     world_with_document (parseOptions_for true)).
Proof.
  split.
  - exact (nodeLocation_reads_the_flag sample_host sample_options "UTF-8" text_html
             sample_transformed {| window_slot := 0 |} sample_node
             (world_with_document (parseOptions_for false))
             sample_window (sample_document (parseOptions_for false))
             eq_refl eq_refl eq_refl eq_refl).
  - exact (nodeLocation_reads_the_flag sample_host locations_options "UTF-8" text_html
             {| windowOptions :=
                  WindowOptions.set_parseOptions (parseOptions_for true)
                    sample_windowOptions;
                transformed_beforeParse := default_beforeParse |}
             {| window_slot := 0 |} sample_node
             (world_with_document (parseOptions_for true))
             sample_window (sample_document (parseOptions_for true))
             eq_refl eq_refl eq_refl eq_refl).
Defined.


Lemma fragment_with_shared_document_witness :
  windows (snd (fragment sample_host None (world_with_document (parseOptions_for false)))) =
    windows (world_with_document (parseOptions_for false)) /\
  documents (snd (fragment sample_host None (world_with_document (parseOptions_for false)))) =
    documents (world_with_document (parseOptions_for false)) /\
  sharedFragmentDocument
    (snd (fragment sample_host None (world_with_document (parseOptions_for false)))) =
    Some 1.
Proof.
  destruct (fragment_with_shared_document sample_host None
              (world_with_document (parseOptions_for false)) _ _ 1
              eq_refl (surjective_pairing _))
    as (Hw & Hd & Hsh & _).
  split; [exact Hw | split; [exact Hd | exact Hsh]].
Defined.
